(** * Product API (Express server): a shallow embedding of [server.js]

    The server keeps an in-memory array [products] and answers seven
    routes under [/api/products].  The embedding follows the source
    function by function:

    - a JavaScript string is modelled by the bytes of its UTF-8 encoding,
      as a [string] (a string with an unpaired surrogate has none and is
      not represented); [trim], [parseInt] and [decodeURIComponent] are
      defined on this encoding, with the white space of ECMAScript, and
      [toLowerCase], whose tables are not reproduced, is a parameter of
      the model ([JS.Builtins]): the handlers are defined for any
      implementation of it, and a statement that needs a property of
      it names that property;
    - JavaScript numbers are modelled exactly, without rounding: the
      integers that [parseInt] produces as [Z], prices as rationals [Q];
      [NaN] is the [None] of [parseInt].  Integers are exact in
      JavaScript up to [JS.MAX_SAFE_INTEGER]; the statements about page
      numbers and limits are made within this range ([JS.safe]);
    - [bodyParser.json()] runs before every route: a request comes with
      the object it parsed, or with the fact that it failed
      ([Server.parsed]);
    - [req.headers], [req.query] and [req.body] are objects used as maps,
      modelled as [gmap string _]; a missing property reads as
      [undefined] (none of the names the server reads on them is
      inherited from [Object.prototype]); the values of [req.query] are
      strings (repeated or bracketed parameters, which the query parser
      turns into arrays and objects, are not represented);
    - the [categories] object of the statistics is keyed by arbitrary
      category names, so its model includes the properties a plain
      object inherits;
    - the [products] array is threaded through the handlers explicitly;
    - [uuidv4()] is an external generator: the identifier it returns for
      a request is an input of the handler. *)

From Stdlib Require Import ZArith QArith Qround Qminmax Ascii String List Lia.
From stdpp Require Import base list strings gmap.

Local Open Scope string_scope.
Local Open Scope Z_scope.

(** ** JavaScript primitives used by the server *)

Module JS.

(** Values that can occur as a property of a parsed JSON body, plus
    [undefined] for a property that is not there.  [JObject] stands for
    any array or object: the server only asks for its truthiness and
    its [typeof]. *)
Inductive value : Type :=
| JUndefined
| JNull
| JBool (b : bool)
| JNumber (n : Q)
| JString (s : string)
| JObject.

(** [!v] is [negb (truthy v)]. *)
Definition truthy (v : value) : bool :=
  match v with
  | JUndefined | JNull => false
  | JBool b => b
  | JNumber n => negb (Qeq_bool n 0)
  | JString s => negb (String.eqb s EmptyString)
  | JObject => true
  end.

Inductive type_tag : Type :=
| TUndefined | TObject | TBoolean | TNumber | TString.

Definition typeof (v : value) : type_tag :=
  match v with
  | JUndefined => TUndefined
  | JNull => TObject
  | JBool _ => TBoolean
  | JNumber _ => TNumber
  | JString _ => TString
  | JObject => TObject
  end.

(** *** Strings

    A [string] holds the bytes of the UTF-8 encoding of a JavaScript
    string: the characters of the ASCII range are one byte each, below
    128, and every other character is a sequence of bytes from 128 on. *)

(** The string with the given bytes. *)
Definition bytes (codes : list nat) : string :=
  fold_right (fun n s => String (ascii_of_nat n) s) EmptyString codes.

(** The letters A to Z in lower case, every other byte as it is: this is
    what [toLowerCase] does to ASCII text. *)
Definition lower_char (c : ascii) : ascii :=
  let n := nat_of_ascii c in
  if ((65 <=? n) && (n <=? 90))%nat then ascii_of_nat (n + 32) else c.

Fixpoint lower_ascii (s : string) : string :=
  match s with
  | EmptyString => EmptyString
  | String c s' => String (lower_char c) (lower_ascii s')
  end.

(** Two bytes that differ at most by the case of a letter A to Z. *)
Definition same_letter (c d : ascii) : bool :=
  let m := nat_of_ascii c in
  let n := nat_of_ascii d in
  ((m =? n)
   || ((65 <=? m) && (m <=? 90) && (n =? m + 32))
   || ((65 <=? n) && (n <=? 90) && (m =? n + 32)))%nat.

(** Two strings that differ at most by the case of their letters A to Z:
    this is how the regular expression of a route compares a path with a
    literal segment. *)
Fixpoint equal_up_to_case (s t : string) : bool :=
  match s, t with
  | EmptyString, EmptyString => true
  | String c s', String d t' => same_letter c d && equal_up_to_case s' t'
  | _, _ => false
  end.

(** Text of the ASCII range only. *)
Fixpoint ascii_text (s : string) : bool :=
  match s with
  | EmptyString => true
  | String c s' => (nat_of_ascii c <? 128)%nat && ascii_text s'
  end.

(** A string with a percent sign in it. *)
Fixpoint has_percent (s : string) : bool :=
  match s with
  | EmptyString => false
  | String c s' => Ascii.eqb c "%" || has_percent s'
  end.

(** [String.prototype.toLowerCase] follows the case mappings of Unicode,
    which are not reproduced here.  It is taken as it is: the server is
    modelled for any implementation of it. *)
Class Builtins : Type := {
  toLowerCase : string -> string;
}.

(** What the statements below use of [toLowerCase], when they use
    anything: on ASCII text it lowers the letters A to Z; two strings
    that differ by the case of such letters only have the same lower
    case. *)
Definition ascii_lowering {builtins : Builtins} : Prop :=
  forall s, ascii_text s = true -> toLowerCase s = lower_ascii s.

Definition case_insensitive {builtins : Builtins} : Prop :=
  forall s t, equal_up_to_case s t = true -> toLowerCase s = toLowerCase t.

(** [String.prototype.includes] *)
Fixpoint includes (s t : string) : bool :=
  String.prefix t s
  || match s with
     | EmptyString => false
     | String _ s' => includes s' t
     end.

(** The white space and line terminators of ECMAScript, which [trim]
    removes and [parseInt] skips, each as its UTF-8 bytes: U+0009 to
    U+000D, U+0020, U+00A0, U+1680, U+2000 to U+200A, U+2028, U+2029,
    U+202F, U+205F, U+3000 and U+FEFF. *)
Definition whitespace : list string :=
  map bytes
    [[9]; [10]; [11]; [12]; [13]; [32]; [194; 160]; [225; 154; 128];
     [226; 128; 128]; [226; 128; 129]; [226; 128; 130]; [226; 128; 131];
     [226; 128; 132]; [226; 128; 133]; [226; 128; 134]; [226; 128; 135];
     [226; 128; 136]; [226; 128; 137]; [226; 128; 138];
     [226; 128; 168]; [226; 128; 169]; [226; 128; 175]; [226; 129; 159];
     [227; 128; 128]; [239; 187; 191]]%nat.

(** [s] without its prefix [t], when it starts with [t]. *)
Fixpoint without_prefix (t s : string) : option string :=
  match t, s with
  | EmptyString, _ => Some s
  | String a t', String b s' => if Ascii.eqb a b then without_prefix t' s' else None
  | String _ _, EmptyString => None
  end.

(** [s] without the first of the strings [ts] that it starts with. *)
Fixpoint without_any (ts : list string) (s : string) : option string :=
  match ts with
  | [] => None
  | t :: rest =>
      match without_prefix t s with
      | Some r => Some r
      | None => without_any rest s
      end
  end.

(** [s] without the strings of [ts] it starts with, one after the other;
    [fuel] bounds their number, and the length of [s] is enough. *)
Fixpoint skip (fuel : nat) (ts : list string) (s : string) : string :=
  match fuel with
  | O => s
  | S fuel' =>
      match without_any ts s with
      | Some r => skip fuel' ts r
      | None => s
      end
  end.

Fixpoint reverse (s : string) : string :=
  match s with
  | EmptyString => EmptyString
  | String c s' => reverse s' +:+ String c EmptyString
  end.

(** [String.prototype.trim]: the white space at the start is skipped, and
    so is the white space at the end, read backwards. *)
Definition trimStart (s : string) : string := skip (String.length s) whitespace s.

Definition trimEnd (s : string) : string :=
  reverse (skip (String.length s) (map reverse whitespace) (reverse s)).

Definition trim (s : string) : string := trimEnd (trimStart s).

(** [parseInt(string)] without a radix: leading white space, an optional
    sign, an optional [0x]/[0X] prefix selecting radix 16, then the
    longest run of digits; [None] is [NaN]. *)
Definition digit_value (radix : Z) (c : ascii) : option Z :=
  let n := Z.of_nat (nat_of_ascii c) in
  let v :=
    if (48 <=? n) && (n <=? 57) then Some (n - 48)
    else if (97 <=? n) && (n <=? 122) then Some (n - 87)
    else if (65 <=? n) && (n <=? 90) then Some (n - 55)
    else None in
  match v with
  | Some d => if d <? radix then Some d else None
  | None => None
  end.

Fixpoint digits (radix : Z) (s : string) (acc : option Z) : option Z :=
  match s with
  | EmptyString => acc
  | String c s' =>
      match digit_value radix c with
      | Some d => digits radix s' (Some (radix * default 0 acc + d))
      | None => acc
      end
  end.

Definition strip_sign (s : string) : Z * string :=
  match s with
  | String c r =>
      if Ascii.eqb c "-" then (-1, r)
      else if Ascii.eqb c "+" then (1, r)
      else (1, s)
  | EmptyString => (1, s)
  end.

Definition strip_prefix (s : string) : Z * string :=
  match s with
  | String c (String x r) =>
      if Ascii.eqb c "0" && (Ascii.eqb x "x" || Ascii.eqb x "X")
      then (16, r) else (10, s)
  | _ => (10, s)
  end.

Definition parseInt_string (s : string) : option Z :=
  let '(sign, s1) := strip_sign (trimStart s) in
  let '(radix, s2) := strip_prefix s1 in
  match digits radix s2 None with
  | Some n => Some (sign * n)
  | None => None
  end.

(** The argument is a property of [req.query]: [undefined] prints as
    ["undefined"], which has no digits. *)
Definition parseInt (v : option string) : option Z :=
  match v with
  | Some s => parseInt_string s
  | None => None
  end.

(** [decodeURIComponent]: every escape [%XX] stands for a byte, and the
    escapes of a string must spell the UTF-8 encoding of characters, one
    after the other; everything else is kept.  [None] is the [URIError]
    thrown otherwise. *)

(** The byte of the escape that [s] starts with, and what follows it. *)
Definition escape (s : string) : option (nat * string) :=
  match s with
  | String p (String h (String l rest)) =>
      if Ascii.eqb p "%" then
        match digit_value 16 h, digit_value 16 l with
        | Some a, Some b => Some (Z.to_nat (16 * a + b), rest)
        | _, _ => None
        end
      else None
  | _ => None
  end.

(** The number of bytes of the character whose encoding starts with the
    byte [b]: the number of its leading 1 bits, which is neither 1 nor
    more than 4, or one byte when there is none. *)
Definition sequence_length (b : nat) : option nat :=
  if (b <? 128)%nat then Some 1%nat
  else if (b <? 192)%nat then None
  else if (b <? 224)%nat then Some 2%nat
  else if (b <? 240)%nat then Some 3%nat
  else if (b <? 248)%nat then Some 4%nat
  else None.

(** [n] more escapes, each for a byte of the form 10xxxxxx. *)
Fixpoint continuation (n : nat) (s : string) : option (list nat * string) :=
  match n with
  | O => Some ([], s)
  | S n' =>
      match escape s with
      | Some (b, rest) =>
          if ((128 <=? b) && (b <? 192))%nat then
            match continuation n' rest with
            | Some (bs, rest') => Some (b :: bs, rest')
            | None => None
            end
          else None
      | None => None
      end
  end.

(** The bytes [b :: bs], of the right number and form, encode a
    character: not one that fewer bytes encode, not a surrogate, and
    none beyond U+10FFFF. *)
Definition encodes (b : nat) (bs : list nat) : bool :=
  match bs with
  | [] => true
  | [_] => (194 <=? b)%nat
  | [c; _] =>
      if (b =? 224)%nat then (160 <=? c)%nat
      else if (b =? 237)%nat then (c <? 160)%nat
      else true
  | [c; _; _] =>
      if (b =? 240)%nat then (144 <=? c)%nat
      else if (b =? 244)%nat then (c <? 144)%nat
      else (b <? 244)%nat
  | _ => false
  end.

(** [fuel] bounds the number of steps; the length of [s] is enough. *)
Fixpoint decode (fuel : nat) (s : string) : option string :=
  match s with
  | EmptyString => Some EmptyString
  | String c s' =>
      match fuel with
      | O => None
      | S fuel' =>
          if Ascii.eqb c "%" then
            match escape s with
            | Some (b, rest) =>
                match sequence_length b with
                | Some n =>
                    match continuation (n - 1) rest with
                    | Some (bs, rest') =>
                        if encodes b bs then
                          match decode fuel' rest' with
                          | Some d => Some (bytes (b :: bs) +:+ d)
                          | None => None
                          end
                        else None
                    | None => None
                    end
                | None => None
                end
            | None => None
            end
          else
            match decode fuel' s' with
            | Some d => Some (String c d)
            | None => None
            end
      end
  end.

Definition decodeURIComponent (s : string) : option string :=
  decode (String.length s) s.

(** [Number.MAX_SAFE_INTEGER]: up to this magnitude every integer is a
    JavaScript number and the arithmetic of the server on integers is
    exact; beyond it numbers are rounded, and from about 1.8e308 on they
    are infinite. *)
Definition MAX_SAFE_INTEGER : Z := 2 ^ 53 - 1.

Definition safe (n : Z) : Prop := - MAX_SAFE_INTEGER <= n <= MAX_SAFE_INTEGER.

(** [n || d] on a number: [NaN] and [0] are falsy. *)
Definition or_default (n : option Z) (d : Z) : Z :=
  match n with
  | Some v => if v =? 0 then d else v
  | None => d
  end.

(** [Array.prototype.slice(start, end)]: a negative bound counts from
    the end of the array, and both bounds are clamped to the array. *)
Definition relative_index (len k : Z) : Z :=
  if k <? 0 then Z.max (len + k) 0 else Z.min k len.

Definition slice {A : Type} (l : list A) (start_ end_ : Z) : list A :=
  let len := Z.of_nat (length l) in
  let k := relative_index len start_ in
  let final := relative_index len end_ in
  let count := Z.max (final - k) 0 in
  take (Z.to_nat count) (drop (Z.to_nat k) l).

(** [Array.prototype.findIndex]; [None] is the result [-1]. *)
Fixpoint findIndex {A : Type} (f : A -> bool) (l : list A) : option nat :=
  match l with
  | [] => None
  | x :: r => if f x then Some 0%nat else S <$> findIndex f r
  end.

(** An object literal [{}] used as a map inherits the properties of
    [Object.prototype]: reading one of the names below on an object that
    has no own property of that name yields a built-in function, and
    reading [__proto__] yields the prototype object itself.  These values
    are truthy, and [inherited k] is the string such a value turns into
    when a number is added to it. *)
Definition prototype_functions : list string :=
  ["__defineGetter__"; "__defineSetter__"; "hasOwnProperty"; "__lookupGetter__";
   "__lookupSetter__"; "isPrototypeOf"; "propertyIsEnumerable"; "toString";
   "valueOf"; "toLocaleString"].

Definition inherited (k : string) : option string :=
  if String.eqb k "__proto__" then Some "[object Object]"
  else if String.eqb k "constructor" then Some "function Object() { [native code] }"
  else if existsb (String.eqb k) prototype_functions
       then Some ("function " +:+ k +:+ "() { [native code] }")
  else None.

(** What a property of the [categories] object can hold: a number, or
    the string that [+ 1] makes of anything else. *)
Inductive tally : Type :=
| Count (n : nat)
| Text (s : string).

(** [Math.ceil] *)
Definition Math_ceil (x : Q) : Z := Qceiling x.

(** [Math.min(...xs)] and [Math.max(...xs)] on a non-empty array (the
    server only calls them under [products.length > 0]). *)
Definition Math_min (xs : list Q) : Q :=
  match xs with
  | [] => 0%Q
  | x :: r => fold_left Qmin r x
  end.

Definition Math_max (xs : list Q) : Q :=
  match xs with
  | [] => 0%Q
  | x :: r => fold_left Qmax r x
  end.

End JS.

(** ** The server *)

Module Server.

Record product : Type := {
  id : string;
  name : string;
  description : string;
  price : Q;
  category : string;
  inStock : bool;
}.

(** Sample in-memory products database *)
Definition seed : list product := [
  {| id := "1"; name := "Laptop";
     description := "High-performance laptop with 16GB RAM";
     price := 1200; category := "electronics"; inStock := true |};
  {| id := "2"; name := "Smartphone";
     description := "Latest model with 128GB storage";
     price := 800; category := "electronics"; inStock := true |};
  {| id := "3"; name := "Coffee Maker";
     description := "Programmable coffee maker with timer";
     price := 50; category := "kitchen"; inStock := false |};
  {| id := "4"; name := "Wireless Headphones";
     description := "Noise-cancelling wireless headphones";
     price := 200; category := "electronics"; inStock := true |};
  {| id := "5"; name := "Desk Chair";
     description := "Ergonomic office chair with lumbar support";
     price := 300; category := "furniture"; inStock := true |}
].

(** Custom error classes; [OtherError] is any other exception. *)
Inductive error : Type :=
| NotFoundError (message : string)
| ValidationError (message : string)
| AuthenticationError (message : string)
| OtherError.

Inductive route : Type :=
| GetProducts                 (* GET    /api/products *)
| SearchProducts              (* GET    /api/products/search *)
| GetStats                    (* GET    /api/products/stats *)
| GetProduct (i : string)     (* GET    /api/products/:id *)
| CreateProduct               (* POST   /api/products *)
| UpdateProduct (i : string)  (* PUT    /api/products/:id *)
| DeleteProduct (i : string). (* DELETE /api/products/:id *)

(** A request as its route sees it: the route it was dispatched to, with
    the decoded [:id], and [req.headers], [req.query] and the [req.body]
    that the body parser has set. *)
Record request : Type := {
  target : route;
  headers : gmap string string;
  query : gmap string string;
  body : gmap string JS.value;
}.

Module Pagination.
Record t : Type := {
  currentPage : Z;
  totalPages : Z;
  totalProducts : nat;
  hasNextPage : bool;
  hasPrevPage : bool;
}.
End Pagination.

Module Stats.
Record t : Type := {
  totalProducts : nat;
  inStock : nat;
  outOfStock : nat;
  categories : gmap string JS.tally;
  averagePrice : Q;
  priceRange_min : Q;
  priceRange_max : Q;
}.
End Stats.

(** What [res.json] is given. *)
Inductive payload : Type :=
| ProductPage (products : list product) (pagination : Pagination.t)
| SearchResults (q : string) (results : list product) (count : nat)
| Statistics (stats : Stats.t)
| OneProduct (p : product)
| Message (message : string) (p : product)
| Failure (err message : string) (statusCode : Z).

Record response : Type := { status : Z; json : payload }.

Definition secret : string := "demo-api-key-123".

(** A handler either throws (and its [catch] calls [next(error)]) or
    answers. *)
Definition outcome : Type := error + response.

(** *** Middleware: [None] is a call to [next()], [Some e] to [next(e)] *)

Definition middleware : Type := request -> option error.

Definition authMiddleware : middleware := fun req =>
  let apiKey := headers req !! "x-api-key" in
  if match apiKey with
     | None => true
     | Some k => String.eqb k EmptyString || negb (String.eqb k secret)
     end
  then Some (AuthenticationError
               "Invalid or missing API key. Please provide a valid x-api-key header.")
  else None.

(** [const { name, ... } = req.body] *)
Definition property (o : gmap string JS.value) (k : string) : JS.value :=
  default JS.JUndefined (o !! k).

Definition is_type (v : JS.value) (t : JS.type_tag) : bool :=
  match JS.typeof v, t with
  | JS.TUndefined, JS.TUndefined | JS.TObject, JS.TObject
  | JS.TBoolean, JS.TBoolean | JS.TNumber, JS.TNumber
  | JS.TString, JS.TString => true
  | _, _ => false
  end.

(** [!x || typeof x !== "string" || x.trim().length === 0]; the last
    disjunct is only evaluated on a string. *)
Definition not_text (x : JS.value) : bool :=
  negb (JS.truthy x)
  || negb (is_type x JS.TString)
  || match x with
     | JS.JString s => (String.length (JS.trim s) =? 0)%nat
     | _ => true
     end.

(** [typeof price !== "number" || price < 0] *)
Definition not_price (x : JS.value) : bool :=
  negb (is_type x JS.TNumber)
  || match x with
     | JS.JNumber n => negb (Qle_bool 0 n)
     | _ => true
     end.

Definition validateProduct : middleware := fun req =>
  let name := property (body req) "name" in
  let description := property (body req) "description" in
  let price := property (body req) "price" in
  let category := property (body req) "category" in
  let inStock := property (body req) "inStock" in
  if not_text name then
    Some (ValidationError "Name is required and must be a non-empty string")
  else if not_text description then
    Some (ValidationError "Description is required and must be a non-empty string")
  else if not_price price then
    Some (ValidationError "Price is required and must be a positive number")
  else if not_text category then
    Some (ValidationError "Category is required and must be a non-empty string")
  else if negb (is_type inStock JS.TBoolean) then
    Some (ValidationError "inStock is required and must be a boolean")
  else None.

(** Global error handling middleware *)
Definition errorHandler (err : error) : response :=
  match err with
  | NotFoundError m =>
      {| status := 404; json := Failure "Not Found" m 404 |}
  | ValidationError m =>
      {| status := 400; json := Failure "Validation Error" m 400 |}
  | AuthenticationError m =>
      {| status := 401; json := Failure "Authentication Error" m 401 |}
  | OtherError =>
      {| status := 500;
         json := Failure "Internal Server Error" "Something went wrong!" 500 |}
  end.

(** *** The body parser

    [app.use(bodyParser.json())] comes first and runs on every request.
    It sets [req.body] to what it parsed, or to an empty object when the
    request carries no JSON; when the body is announced as JSON and
    cannot be parsed (or is too long) it calls [next(err)] with an error
    of its own, which is none of the three classes above. *)
Inductive parsed : Type :=
| Body (o : gmap string JS.value)
| Unparsable.

Section Handlers.

Context {builtins : JS.Builtins}.

(** *** GET /api/products *)

Definition filterByCategory (q : gmap string string) (l : list product)
  : list product :=
  match q !! "category" with
  | Some c =>
      if String.eqb c EmptyString then l
      else List.filter
             (fun p => String.eqb (JS.toLowerCase (category p)) (JS.toLowerCase c)) l
  | None => l
  end.

Definition filterByInStock (q : gmap string string) (l : list product)
  : list product :=
  match q !! "inStock" with
  | Some v =>
      let wanted := String.eqb v "true" in
      List.filter (fun p => Bool.eqb (inStock p) wanted) l
  | None => l
  end.

Definition filteredProducts (products : list product) (q : gmap string string)
  : list product :=
  filterByInStock q (filterByCategory q products).

Definition page_of (q : gmap string string) : Z :=
  JS.or_default (JS.parseInt (q !! "page")) 1.

Definition limit_of (q : gmap string string) : Z :=
  JS.or_default (JS.parseInt (q !! "limit")) 10.

Definition getProducts (products : list product) (req : request) : outcome :=
  let filtered := filteredProducts products (query req) in
  let page := page_of (query req) in
  let limit := limit_of (query req) in
  let startIndex := (page - 1) * limit in
  let endIndex := page * limit in
  let paginatedProducts := JS.slice filtered startIndex endIndex in
  let len := Z.of_nat (length filtered) in
  inr {| status := 200;
         json := ProductPage paginatedProducts
           {| Pagination.currentPage := page;
              Pagination.totalPages :=
                JS.Math_ceil (inject_Z len / inject_Z limit)%Q;
              Pagination.totalProducts := length filtered;
              Pagination.hasNextPage := endIndex <? len;
              Pagination.hasPrevPage := 1 <? page |} |}.

(** *** GET /api/products/search *)

Definition dquote : string := String (ascii_of_nat 34) EmptyString.

Definition matches (q : string) (p : product) : bool :=
  JS.includes (JS.toLowerCase (name p)) (JS.toLowerCase q)
  || JS.includes (JS.toLowerCase (description p)) (JS.toLowerCase q).

Definition searchProducts (products : list product) (req : request) : outcome :=
  match query req !! "q" with
  | Some q =>
      if String.eqb q EmptyString then
        inl (ValidationError
               ("Search query parameter " +:+ dquote +:+ "q" +:+ dquote +:+ " is required"))
      else
        let searchResults := List.filter (matches q) products in
        inr {| status := 200;
               json := SearchResults q searchResults (length searchResults) |}
  | None =>
      inl (ValidationError
             ("Search query parameter " +:+ dquote +:+ "q" +:+ dquote +:+ " is required"))
  end.

(** *** GET /api/products/stats *)

(** [stats.categories[product.category] =
       (stats.categories[product.category] || 0) + 1]: the read falls back
    on the inherited properties, [+ 1] adds to a number and appends to a
    string, and the write of a string to [__proto__] goes to the setter
    of [Object.prototype], which ignores it. *)
Definition countCategory (m : gmap string JS.tally) (p : product)
  : gmap string JS.tally :=
  let k := category p in
  let current :=
    match m !! k with
    | Some v => Some v
    | None => JS.Text <$> JS.inherited k
    end in
  let next :=
    match current with
    | Some (JS.Count n) => JS.Count (n + 1)
    | Some (JS.Text t) =>
        if String.eqb t EmptyString then JS.Count 1 else JS.Text (t +:+ "1")
    | None => JS.Count 1
    end in
  if String.eqb k "__proto__" then m else <[k := next]> m.

Definition getStats (products : list product) : outcome :=
  let prices := map price products in
  let nonempty := (0 <? length products)%nat in
  inr {| status := 200;
         json := Statistics
           {| Stats.totalProducts := length products;
              Stats.inStock := length (List.filter (fun p => inStock p) products);
              Stats.outOfStock :=
                length (List.filter (fun p => negb (inStock p)) products);
              Stats.categories := foldl countCategory ∅ products;
              Stats.averagePrice :=
                if nonempty
                then (fold_left Qplus prices 0 / inject_Z (Z.of_nat (length prices)))%Q
                else 0%Q;
              Stats.priceRange_min := if nonempty then JS.Math_min prices else 0%Q;
              Stats.priceRange_max := if nonempty then JS.Math_max prices else 0%Q |} |}.

(** *** GET /api/products/:id *)

Definition not_found (i : string) : error :=
  NotFoundError ("Product with ID " +:+ i +:+ " not found").

Definition getProduct (products : list product) (i : string) : outcome :=
  match List.find (fun p => String.eqb (id p) i) products with
  | Some p => inr {| status := 200; json := OneProduct p |}
  | None => inl (not_found i)
  end.

(** *** POST /api/products *)

(** The five destructured properties as the handlers use them.  After
    [validateProduct] they have these types; on anything else
    [name.trim()] would throw, which the handlers' [catch] forwards. *)
Definition fields (o : gmap string JS.value)
  : option (string * string * Q * string * bool) :=
  match property o "name", property o "description", property o "price",
        property o "category", property o "inStock" with
  | JS.JString n, JS.JString d, JS.JNumber p, JS.JString c, JS.JBool s =>
      Some (JS.trim n, JS.trim d, p, JS.trim c, s)
  | _, _, _, _, _ => None
  end.

Definition createProduct (uuid : string) (products : list product) (req : request)
  : outcome * list product :=
  match fields (body req) with
  | Some (n, d, p, c, s) =>
      let newProduct :=
        {| id := uuid; name := n; description := d; price := p;
           category := c; inStock := s |} in
      (inr {| status := 201;
              json := Message "Product created successfully" newProduct |},
       (products ++ [newProduct])%list)
  | None => (inl OtherError, products)
  end.

(** *** PUT /api/products/:id *)

Definition updateProduct (products : list product) (i : string) (req : request)
  : outcome * list product :=
  match JS.findIndex (fun p => String.eqb (id p) i) products with
  | None => (inl (not_found i), products)
  | Some productIndex =>
      match products !! productIndex, fields (body req) with
      | Some old, Some (n, d, p, c, s) =>
          let updated :=
            {| id := id old; name := n; description := d; price := p;
               category := c; inStock := s |} in
          (inr {| status := 200;
                  json := Message "Product updated successfully" updated |},
           <[productIndex := updated]> products)
      | _, _ => (inl OtherError, products)
      end
  end.

(** *** DELETE /api/products/:id *)

Definition deleteProduct (products : list product) (i : string)
  : outcome * list product :=
  match JS.findIndex (fun p => String.eqb (id p) i) products with
  | None => (inl (not_found i), products)
  | Some productIndex =>
      match products !! productIndex with
      | Some deletedProduct =>
          (inr {| status := 200;
                  json := Message "Product deleted successfully" deletedProduct |},
           delete productIndex products)
      | None => (inl OtherError, products)
      end
  end.

(** *** Routing: the middleware registered on each route, then its
    handler; every [next(error)] ends in [errorHandler]. *)

Definition middlewares (r : route) : list middleware :=
  match r with
  | CreateProduct => [authMiddleware; validateProduct]
  | UpdateProduct _ => [authMiddleware; validateProduct]
  | DeleteProduct _ => [authMiddleware]
  | GetProducts | SearchProducts | GetStats | GetProduct _ => []
  end.

Fixpoint run_middlewares (ms : list middleware) (req : request) : option error :=
  match ms with
  | [] => None
  | m :: rest =>
      match m req with
      | Some e => Some e
      | None => run_middlewares rest req
      end
  end.

Definition handler (uuid : string) (products : list product) (req : request)
  : outcome * list product :=
  match target req with
  | GetProducts => (getProducts products req, products)
  | SearchProducts => (searchProducts products req, products)
  | GetStats => (getStats products, products)
  | GetProduct i => (getProduct products i, products)
  | CreateProduct => createProduct uuid products req
  | UpdateProduct i => updateProduct products i req
  | DeleteProduct i => deleteProduct products i
  end.

Definition respond (o : outcome) : response :=
  match o with
  | inl e => errorHandler e
  | inr r => r
  end.

(** One request that has reached its route, against the current array:
    the middleware of the route, then its handler, and [errorHandler] for
    what they pass to [next].  [uuid] is what [uuidv4()] returns if this
    request calls it. *)
Definition handle (uuid : string) (products : list product) (req : request)
  : response * list product :=
  match run_middlewares (middlewares (target req)) req with
  | Some e => (errorHandler e, products)
  | None =>
      let '(o, products') := handler uuid products req in
      (respond o, products')
  end.

(** A request from the body parser on: when the parser fails, no route
    runs and the error goes to [errorHandler]. *)
Definition receive (uuid : string) (products : list product) (r : route)
  (h q : gmap string string) (b : parsed) : response * list product :=
  match b with
  | Body o =>
      handle uuid products {| target := r; headers := h; query := q; body := o |}
  | Unparsable => (errorHandler OtherError, products)
  end.

(** A sequence of requests, each paired with the identifier the
    generator has ready for it. *)
Fixpoint serve (products : list product) (rs : list (string * request))
  : list product :=
  match rs with
  | [] => products
  | (uuid, req) :: rest => serve (snd (handle uuid products req)) rest
  end.

End Handlers.

Definition mutating (r : route) : bool :=
  match r with
  | CreateProduct | UpdateProduct _ | DeleteProduct _ => true
  | _ => false
  end.

End Server.

(** ** The properties as the specification words them *)

Module Spec.

(** The elements of [l] at the indices [i] with [a <= i < b], the
    first element of [l] having index [i0]. *)
Fixpoint window_from {A : Type} (i0 a b : Z) (l : list A) : list A :=
  match l with
  | [] => []
  | x :: r =>
      if (a <=? i0) && (i0 <? b) then x :: window_from (i0 + 1) a b r
      else window_from (i0 + 1) a b r
  end.

(** The slice [[a, b)] of a list. *)
Definition window {A : Type} (a b : Z) (l : list A) : list A :=
  window_from 0 a b l.

(** [k] is the ceiling of [x]: the least integer that is not below it. *)
Definition is_ceiling (x : Q) (k : Z) : Prop :=
  (x <= inject_Z k)%Q /\ (inject_Z (k - 1) < x)%Q.

(** [q] occurs in [s] as a substring. *)
Definition substring (s q : string) : Prop :=
  exists before after, s = before +:+ q +:+ after.

(** [q] occurs in [s] as a substring, up to the case of the letters A to
    Z. *)
Definition contains_up_to_case (s q : string) : Prop :=
  exists before found after,
    s = before +:+ found +:+ after /\ JS.equal_up_to_case found q = true.

(** A string that is a sequence of strings of [ts]. *)
Inductive made_of (ts : list string) : string -> Prop :=
| made_of_nil : made_of ts EmptyString
| made_of_cons (t s : string) : In t ts -> made_of ts s -> made_of ts (t +:+ s).

(** The same, decided from left to right; the length of [s] is enough
    [fuel]. *)
Fixpoint only (fuel : nat) (ts : list string) (s : string) : bool :=
  match s with
  | EmptyString => true
  | String _ _ =>
      match fuel with
      | O => false
      | S fuel' =>
          match JS.without_any ts s with
          | Some r => only fuel' ts r
          | None => false
          end
      end
  end.

(** A string made of white space only (the empty string included). *)
Definition blank (s : string) : bool := only (String.length s) JS.whitespace s.

Definition starts_with_whitespace (s : string) : bool :=
  match JS.without_any JS.whitespace s with
  | Some _ => true
  | None => false
  end.

Definition ends_with_whitespace (s : string) : bool :=
  match JS.without_any (map JS.reverse JS.whitespace) (JS.reverse s) with
  | Some _ => true
  | None => false
  end.

(** [t] is [s] with its leading and trailing white space removed. *)
Definition trimmed_of (s t : string) : Prop :=
  exists leading trailing,
    s = leading +:+ t +:+ trailing
    /\ blank leading = true /\ blank trailing = true
    /\ starts_with_whitespace t = false /\ ends_with_whitespace t = false.

(** The validator's rules, in the order they are checked. *)
Inductive rule : Type := Name | Description | Price | Category | InStock.

Definition rules : list rule := [Name; Description; Price; Category; InStock].

Definition key (r : rule) : string :=
  match r with
  | Name => "name"
  | Description => "description"
  | Price => "price"
  | Category => "category"
  | InStock => "inStock"
  end.

Definition message (r : rule) : string :=
  match r with
  | Name => "Name is required and must be a non-empty string"
  | Description => "Description is required and must be a non-empty string"
  | Price => "Price is required and must be a positive number"
  | Category => "Category is required and must be a non-empty string"
  | InStock => "inStock is required and must be a boolean"
  end.

(** "present and non-empty string", read literally *)
Definition non_empty_string (v : JS.value) : bool :=
  match v with
  | JS.JString s => negb (String.eqb s EmptyString)
  | _ => false
  end.

(** present and a string with something else than white space in it *)
Definition non_blank_string (v : JS.value) : bool :=
  match v with
  | JS.JString s => negb (blank s)
  | _ => false
  end.

(** "present, numeric, >= 0" *)
Definition non_negative_number (v : JS.value) : bool :=
  match v with
  | JS.JNumber n => Qle_bool 0 n
  | _ => false
  end.

(** "present and boolean" *)
Definition boolean (v : JS.value) : bool :=
  match v with
  | JS.JBool _ => true
  | _ => false
  end.

(** A rule holds of a payload; [text] decides what a non-empty string
    is. *)
Definition holds (text : JS.value -> bool) (o : gmap string JS.value) (r : rule)
  : bool :=
  let v := Server.property o (key r) in
  match r with
  | Name | Description | Category => text v
  | Price => non_negative_number v
  | InStock => boolean v
  end.

(** The first rule, in order, that the payload breaks. *)
Definition first_failure (text : JS.value -> bool) (o : gmap string JS.value)
  : option rule :=
  List.find (fun r => negb (holds text o r)) rules.

(** Number of products of a category. *)
Definition in_category (c : string) (l : list Server.product) : nat :=
  length (List.filter (fun p => String.eqb (Server.category p) c) l).

(** Sum of a list of prices. *)
Definition total (xs : list Q) : Q := fold_right Qplus 0%Q xs.


End Spec.

Import Server.

(** ** [toLowerCase] on ASCII text

    The sample requests below are ASCII text, on which [toLowerCase]
    lowers the letters A to Z.  This implementation, which does that and
    no more, is the one the samples are computed with; the theorems are
    stated for every implementation. *)
#[global] Instance ascii_builtins : JS.Builtins :=
  {| JS.toLowerCase := JS.lower_ascii |}.

(** ** Sample requests *)

Definition key_header : gmap string string := {["x-api-key" := secret]}.

Definition payload_of (n d : string) (p : Q) (c : string) (s : bool)
  : gmap string JS.value :=
  <["name" := JS.JString n]> (<["description" := JS.JString d]>
  (<["price" := JS.JNumber p]> (<["category" := JS.JString c]>
  (<["inStock" := JS.JBool s]> ∅)))).

Definition fetch (r : route) (q : gmap string string) : request :=
  {| target := r; headers := ∅; query := q; body := ∅ |}.

Definition submit (r : route) (h : gmap string string) (b : gmap string JS.value)
  : request :=
  {| target := r; headers := h; query := ∅; body := b |}.

Definition desk : gmap string JS.value :=
  payload_of " Desk " "Standing desk" 450 "furniture " true.

Definition with_headers (req : request) (h : gmap string string) : request :=
  {| target := target req; headers := h; query := query req; body := body req |}.

Definition auth_failure : error :=
  AuthenticationError
    "Invalid or missing API key. Please provide a valid x-api-key header.".

(** The record the create and update handlers build from an accepted
    payload. *)
Definition stored (i n d : string) (p : Q) (c : string) (s : bool) : product :=
  {| id := i; name := JS.trim n; description := JS.trim d; price := p;
     category := JS.trim c; inStock := s |}.

Definition created (p : product) : response :=
  {| status := 201; json := Message "Product created successfully" p |}.

Definition updated (p : product) : response :=
  {| status := 200; json := Message "Product updated successfully" p |}.

Definition deleted (p : product) : response :=
  {| status := 200; json := Message "Product deleted successfully" p |}.

Definition has_id (i : string) (p : product) : bool := String.eqb (id p) i.

(** Sample payloads: a name padded with spaces, and a name made of one
    space. *)
Definition padded_laptop : gmap string JS.value :=
  payload_of " Laptop " "Thin laptop" 999 "electronics" true.

Definition blank_name : gmap string JS.value :=
  payload_of " " "Standing desk" 450 "furniture" true.

(** A payload whose category is the name of an inherited property. *)
Definition builder_kit : gmap string JS.value :=
  payload_of "Builder kit" "Bricks and plates" 35 "constructor" true.

(** A short session: create, update, delete. *)
Definition session : list (string * request) :=
  [("7c9e6679-7425-40de-944b-e07fc1f90ae7", submit CreateProduct key_header desk);
   ("unused", submit (UpdateProduct "3") key_header padded_laptop);
   ("unused", submit (DeleteProduct "1") key_header ∅)].


(** A name, a category and a page number written with the white space
    U+00A0, U+3000 and U+FEFF. *)
Definition nbsp : string := JS.bytes [194; 160]%nat.

Definition wide_blank_name : gmap string JS.value :=
  payload_of (nbsp +:+ JS.bytes [227; 128; 128]%nat) "Standing desk" 450 "furniture" true.

Definition wide_padded_desk : gmap string JS.value :=
  payload_of (nbsp +:+ "Desk" +:+ JS.bytes [239; 187; 191]%nat) "Standing desk" 450
    (nbsp +:+ "furniture") true.

(** ** The application: routes in their order of registration

    [app.get], [app.post], [app.put] and [app.delete] register a route
    for one method and one path; a request that the body parser let
    through goes to the first registered route whose path and method
    fit, and to the final [app.use("*")] handler when none does.  Paths
    are matched segment by segment, as they are written in the URL:
    literal segments without regard to the case of the letters A to Z, a
    named parameter against any non-empty segment, and one trailing slash
    is ignored.  The value of a parameter is the segment decoded by
    [decodeURIComponent]; when that throws, on whatever route and for
    whatever method, the error goes to [errorHandler] and no later route
    is tried.  A route registered for GET also answers HEAD.  The method
    of a request is its name in upper case, as Node delivers it, and its
    path is given as its segments (what stands between the slashes after
    the first one); what the logger and the error handler print on the
    console is not modelled. *)

Module App.

Inductive segment : Type :=
| Lit (s : string)
| Param.

(** What a route makes of a path: no match, a match with the values of
    its parameters, or a parameter that cannot be decoded. *)
Inductive matched : Type :=
| NoMatch
| Params (ps : list string)
| BadParam.

Fixpoint strip_trailing (path : list string) : list string :=
  match path with
  | [] => []
  | x :: rest =>
      match rest with
      | [] => if String.eqb x EmptyString then [] else [x]
      | _ => x :: strip_trailing rest
      end
  end.

(** [registered] is the method of a route, [requested] that of a
    request. *)
Definition handles (registered requested : string) : bool :=
  String.eqb requested registered
  || (String.eqb registered "GET" && String.eqb requested "HEAD").

Inductive endpoint : Type :=
| Root
| Api (r : route).

(** Where a request goes: to a route, to the final handler, or to the
    error handler with the error of a parameter that cannot be decoded. *)
Inductive routed : Type :=
| Endpoint (e : endpoint)
| Unmatched
| Malformed.

Definition products_path : list segment := [Lit "api"; Lit "products"].

(** The routes, in the order the source registers them. *)
Definition routes : list (string * list segment * (list string -> endpoint)) :=
  [("GET", [], fun _ => Root);
   ("GET", products_path, fun _ => Api GetProducts);
   ("GET", products_path ++ [Lit "search"], fun _ => Api SearchProducts);
   ("GET", products_path ++ [Lit "stats"], fun _ => Api GetStats);
   ("GET", products_path ++ [Param], fun ps => Api (GetProduct (hd EmptyString ps)));
   ("POST", products_path, fun _ => Api CreateProduct);
   ("PUT", products_path ++ [Param], fun ps => Api (UpdateProduct (hd EmptyString ps)));
   ("DELETE", products_path ++ [Param],
    fun ps => Api (DeleteProduct (hd EmptyString ps)))]%list.

Record incoming : Type := {
  verb : string;
  path : list string;
  originalUrl : string;
  request_headers : gmap string string;
  request_query : gmap string string;
  request_body : parsed;
}.

Inductive answer : Type :=
| Welcome (message : string) (endpoints : list (string * string))
| Json (r : response).

Definition welcome : answer :=
  Welcome "Welcome to the Product API!"
    [("GET /api/products", "Get all products");
     ("GET /api/products/:id", "Get a specific product");
     ("POST /api/products", "Create a new product");
     ("PUT /api/products/:id", "Update a product");
     ("DELETE /api/products/:id", "Delete a product");
     ("GET /api/products/search?q=query", "Search products by name");
     ("GET /api/products/stats", "Get product statistics")].

(** 404 handler for undefined routes *)
Definition no_route (r : incoming) : response :=
  {| status := 404;
     json := Failure "Not Found"
               ("Route " +:+ verb r +:+ " " +:+ originalUrl r +:+ " not found") 404 |}.

Section Routes.

Context {builtins : JS.Builtins}.

Fixpoint match_path (pattern : list segment) (path : list string) : matched :=
  match pattern, path with
  | [], [] => Params []
  | Lit s :: pattern', x :: path' =>
      if JS.equal_up_to_case x s then match_path pattern' path' else NoMatch
  | Param :: pattern', x :: path' =>
      if String.eqb x EmptyString then NoMatch
      else match match_path pattern' path' with
           | Params ps =>
               match JS.decodeURIComponent x with
               | Some v => Params (v :: ps)
               | None => BadParam
               end
           | other => other
           end
  | _, _ => NoMatch
  end.

(** The path is matched, and its parameters decoded, before the method
    is looked at. *)
Fixpoint first_route (rs : list (string * list segment * (list string -> endpoint)))
  (m : string) (path : list string) : routed :=
  match rs with
  | [] => Unmatched
  | (registered, pattern, build) :: rest =>
      match match_path pattern path with
      | Params ps => if handles registered m then Endpoint (build ps)
                     else first_route rest m path
      | NoMatch => first_route rest m path
      | BadParam => Malformed
      end
  end.

Definition dispatch (m : string) (path : list string) : routed :=
  first_route routes m (strip_trailing path).

Definition app (uuid : string) (products : list product) (r : incoming)
  : answer * list product :=
  match request_body r with
  | Unparsable => (Json (errorHandler OtherError), products)
  | Body o =>
      match dispatch (verb r) (path r) with
      | Endpoint Root => (welcome, products)
      | Endpoint (Api t) =>
          let '(resp, products') :=
            handle uuid products
              {| target := t; headers := request_headers r;
                 query := request_query r; body := o |} in
          (Json resp, products')
      | Unmatched => (Json (no_route r), products)
      | Malformed => (Json (errorHandler OtherError), products)
      end
  end.

End Routes.


End App.

(** ** More properties, as the code shows them *)

Module Props.

(** A stored string: something else than white space in it, and none at
    either end. *)
Definition clean (s : string) : bool :=
  negb (Spec.blank s) && negb (Spec.starts_with_whitespace s)
  && negb (Spec.ends_with_whitespace s).

(** The shape of a record that went through validation and trimming. *)
Definition well_formed (p : product) : bool :=
  clean (name p) && clean (description p) && clean (category p)
  && Qle_bool 0 (price p).

(** The products of a page answer (none for any other answer). *)
Definition page_items (r : response) : list product :=
  match json r with
  | ProductPage items _ => items
  | _ => []
  end.

Definition page_info (r : response) : option Pagination.t :=
  match json r with
  | ProductPage _ info => Some info
  | _ => None
  end.

Definition search_results (r : response) : list product :=
  match json r with
  | SearchResults _ results _ => results
  | _ => []
  end.

Definition with_query (req : request) (q : gmap string string) : request :=
  {| target := target req; headers := headers req; query := q; body := body req |}.

Definition with_body (req : request) (b : gmap string JS.value) : request :=
  {| target := target req; headers := headers req; query := query req; body := b |}.

Definition with_target (req : request) (t : route) : request :=
  {| target := t; headers := headers req; query := query req; body := body req |}.

(** The payload carries what the create and update handlers store. *)
Definition carries (req : request) (n d : string) (p : Q) (c : string) (s : bool)
  : Prop :=
  property (body req) "name" = JS.JString n
  /\ property (body req) "description" = JS.JString d
  /\ property (body req) "price" = JS.JNumber p
  /\ property (body req) "category" = JS.JString c
  /\ property (body req) "inStock" = JS.JBool s
  /\ Spec.blank n = false /\ Spec.blank d = false /\ Spec.blank c = false
  /\ (0 <= p)%Q.

End Props.

(** ** The primitives on sample inputs *)

Example parseInt_examples :
  JS.parseInt (Some "2") = Some 2 /\ JS.parseInt (Some " -12px") = Some (-12)
  /\ JS.parseInt (Some "0x1F") = Some 31 /\ JS.parseInt (Some "3.7") = Some 3
  /\ JS.parseInt (Some "abc") = None /\ JS.parseInt (Some EmptyString) = None
  /\ JS.parseInt None = None
  /\ JS.or_default (JS.parseInt (Some "-0")) 1 = 1
  /\ JS.or_default (JS.parseInt (Some "ten")) 10 = 10
  /\ JS.or_default (JS.parseInt (Some "-3")) 1 = -3.
Proof. repeat split; reflexivity. Qed.

Example string_examples :
  JS.trim "  a b  " = "a b" /\ JS.trim "   " = EmptyString
  /\ JS.trim (nbsp +:+ "a" +:+ JS.bytes [226; 128; 168]%nat) = "a"
  /\ Spec.blank (nbsp +:+ " " +:+ JS.bytes [239; 187; 191]%nat) = true
  /\ Spec.blank (JS.bytes [194; 32]%nat) = false
  /\ JS.parseInt (Some (nbsp +:+ "5")) = Some 5
  /\ JS.lower_ascii "LapTop 16GB" = "laptop 16gb"
  /\ JS.includes "high-performance laptop" "laptop" = true
  /\ JS.includes "abc" EmptyString = true /\ JS.includes "abc" "abd" = false.
Proof. repeat split; reflexivity. Qed.

Example decodeURIComponent_examples :
  JS.decodeURIComponent "search" = Some "search"
  /\ JS.decodeURIComponent "se%61rch" = Some "search"
  /\ JS.decodeURIComponent "a%20b%2Fc" = Some "a b/c"
  /\ JS.decodeURIComponent "100%25" = Some "100%"
  /\ JS.decodeURIComponent "%" = None
  /\ JS.decodeURIComponent "%4" = None
  /\ JS.decodeURIComponent "%zz" = None
  /\ JS.decodeURIComponent "caf%C3%A9" = Some ("caf" +:+ JS.bytes [195; 169]%nat)
  /\ JS.decodeURIComponent "%c3%a9" = Some (JS.bytes [195; 169]%nat)
  /\ JS.decodeURIComponent "%E2%82%AC" = Some (JS.bytes [226; 130; 172]%nat)
  /\ JS.decodeURIComponent "%F0%9F%98%80" = Some (JS.bytes [240; 159; 152; 128]%nat)
  /\ JS.decodeURIComponent "%C3" = None
  /\ JS.decodeURIComponent "%C3%41" = None
  /\ JS.decodeURIComponent "%C3A9" = None
  /\ JS.decodeURIComponent "%80" = None
  /\ JS.decodeURIComponent "%FF" = None
  /\ JS.decodeURIComponent "%C0%80" = None
  /\ JS.decodeURIComponent "%E0%80%80" = None
  /\ JS.decodeURIComponent "%ED%A0%80" = None
  /\ JS.decodeURIComponent "%F4%90%80%80" = None
  /\ JS.decodeURIComponent "%F5%80%80%80" = None.
Proof. repeat split; vm_compute; reflexivity. Qed.

Example slice_examples :
  JS.slice [1; 2; 3; 4; 5] 2 4 = [3; 4] /\ JS.slice [1; 2; 3; 4; 5] 4 6 = [5]
  /\ JS.slice [1; 2; 3; 4; 5] 0 (-2) = [1; 2; 3]
  /\ JS.slice [1; 2; 3; 4; 5] (-20) (-10) = []
  /\ Spec.window 2 4 [1; 2; 3; 4; 5] = [3; 4]
  /\ Spec.window 0 (-2) [1; 2; 3; 4; 5] = [].
Proof. repeat split; reflexivity. Qed.

Example created_then_listed :
  snd (handle "u" seed (submit CreateProduct key_header desk))
  = (seed ++ [{| id := "u"; name := "Desk"; description := "Standing desk";
                 price := 450; category := "furniture"; inStock := true |}])%list.
Proof. vm_compute. reflexivity. Qed.

(** ** Facts about the middleware *)

Section Middleware.

Variable req : request.

Lemma auth_passes_iff :
  authMiddleware req = None <-> headers req !! "x-api-key" = Some secret.
Proof.
  unfold authMiddleware.
  destruct (headers req !! "x-api-key") as [k|]; [|split; discriminate].
  destruct (String.eqb_spec k secret) as [->|Hne]; simpl.
  - split; reflexivity.
  - rewrite orb_true_r. split; [discriminate|]. intros [= ->]. contradiction.
Qed.

Lemma auth_fails_with e : authMiddleware req = Some e -> e = auth_failure.
Proof.
  unfold authMiddleware.
  destruct (match headers req !! "x-api-key" with None => _ | Some _ => _ end);
    [intros [= <-]; reflexivity | discriminate].
Qed.

Lemma auth_rejects :
  headers req !! "x-api-key" <> Some secret ->
  authMiddleware req = Some auth_failure.
Proof.
  intros Hne. destruct (authMiddleware req) as [e|] eqn:Ha.
  - f_equal. now apply auth_fails_with.
  - apply auth_passes_iff in Ha. contradiction.
Qed.

Lemma validation_fails_with e :
  validateProduct req = Some e -> exists m, e = ValidationError m.
Proof.
  unfold validateProduct.
  repeat match goal with
         | |- context [if ?b then _ else _] => destruct b
         end; intros [= <-]; eauto.
Qed.

End Middleware.

(** ** Facts about the handlers *)

Lemma handler_status {builtins : JS.Builtins} uuid products req o products' :
  handler uuid products req = (o, products') ->
  status (respond o) <> 401.
Proof.
  unfold handler, getProducts, searchProducts, getStats, getProduct,
    createProduct, updateProduct, deleteProduct, not_found.
  intros H.
  repeat match type of H with
         | context [match ?x with _ => _ end] => destruct x
         end;
    injection H as <- <-; simpl; discriminate.
Qed.

Lemma findIndex_None {A : Type} (f : A -> bool) (l : list A) :
  JS.findIndex f l = None <-> forall x, x ∈ l -> f x = false.
Proof.
  induction l as [|a l IH]; simpl.
  - split; [intros _ x Hx; inversion Hx | reflexivity].
  - destruct (f a) eqn:Hfa.
    + split; [discriminate|]. intros H. rewrite H in Hfa; [discriminate | left].
    + destruct (JS.findIndex f l) eqn:Hl; simpl.
      * split; [discriminate|]. intros H.
        enough (Some n = None) by discriminate.
        apply IH. intros x Hx. apply H. now right.
      * split; [|reflexivity]. intros _ x Hx.
        apply elem_of_cons in Hx as [->|Hx]; [assumption|].
        now apply IH.
Qed.

Lemma findIndex_Some {A : Type} (f : A -> bool) (l : list A) (i : nat) :
  JS.findIndex f l = Some i ->
  exists x, l !! i = Some x /\ f x = true
            /\ forall j y, (j < i)%nat -> l !! j = Some y -> f y = false.
Proof.
  revert i. induction l as [|a l IH]; simpl; intros i; [discriminate|].
  destruct (f a) eqn:Hfa.
  - intros [= <-]. exists a. repeat split; [assumption|]. intros j y Hj. lia.
  - destruct (JS.findIndex f l) as [k|] eqn:Hl; simpl; [|discriminate].
    intros [= <-]. destruct (IH k eq_refl) as (x & Hx & Hfx & Hbefore).
    exists x. repeat split; [assumption..|].
    intros [|j] y Hj; simpl.
    + intros [= <-]. assumption.
    + apply Hbefore. lia.
Qed.

(** ** C1: the authentication check *)

(** C1, as worded, fails: a POST without the key whose body the JSON
    parser cannot read is stopped by the body parser, before the route
    and its auth check; the answer is the 500 error, not the 401 one. *)
Lemma unparsable_body_is_not_401 :
  mutating CreateProduct = true
  /\ (∅ : gmap string string) !! "x-api-key" <> Some secret
  /\ receive "u" seed CreateProduct ∅ ∅ Unparsable
     = ({| status := 500;
           json := Failure "Internal Server Error" "Something went wrong!" 500 |},
        seed)
  /\ status (fst (receive "u" seed CreateProduct ∅ ∅ Unparsable)) <> 401.
Proof. repeat split; try (vm_compute; reflexivity); vm_compute; discriminate. Qed.

(** C1, amended. The auth check passes exactly when the [x-api-key]
    header is the shared secret.  On POST, PUT and DELETE it is the first
    middleware of the route: for a request whose body the parser
    accepted, with any other header value (or none) the answer is the
    401 authentication error and the array is returned as it was, and
    with the secret the answer is never 401.  The four GET routes
    register no middleware at all, and their answer does not depend on
    the headers.  A request whose body the parser refused is answered
    500 on every route, whatever its headers, and the array is returned
    as it was. *)
Theorem auth_check_guards_mutations {builtins : JS.Builtins}
  (uuid : string) (products : list product) (r : route)
  (h q : gmap string string) (o : gmap string JS.value) :
  let req := {| target := r; headers := h; query := q; body := o |} in
  (authMiddleware req = None <-> h !! "x-api-key" = Some secret)
  /\ (mutating r = true ->
      head (middlewares r) = Some authMiddleware
      /\ (h !! "x-api-key" <> Some secret ->
          receive uuid products r h q (Body o) = (errorHandler auth_failure, products)
          /\ status (errorHandler auth_failure) = 401)
      /\ (h !! "x-api-key" = Some secret ->
          status (fst (receive uuid products r h q (Body o))) <> 401))
  /\ (mutating r = false ->
      middlewares r = []
      /\ forall h' b, receive uuid products r h' q b = receive uuid products r h q b)
  /\ receive uuid products r h q Unparsable = (errorHandler OtherError, products)
  /\ status (errorHandler OtherError) = 500.
Proof.
  intros req. split; [apply auth_passes_iff|]. split; [|split; [|split; reflexivity]].
  - intros Hm. split; [|split].
    + destruct r; try discriminate; reflexivity.
    + intros Hne. split; [|reflexivity].
      unfold receive, handle. fold req.
      destruct r; try discriminate; simpl;
        now rewrite (auth_rejects req Hne).
    + intros Hkey. apply (auth_passes_iff req) in Hkey.
      unfold receive, handle. fold req.
      assert (Hrest : forall ms,
                 (forall e, run_middlewares ms req = Some e ->
                            exists m, e = ValidationError m) ->
                 status (fst match run_middlewares ms req with
                             | Some e => (errorHandler e, products)
                             | None => let '(o, products') := handler uuid products req in
                                       (respond o, products')
                             end) <> 401).
      { intros ms Hms. destruct (run_middlewares ms req) as [e|] eqn:Hrun.
        - destruct (Hms e eq_refl) as [m ->]. simpl. discriminate.
        - destruct (handler uuid products req) as [o' products'] eqn:Hh.
          simpl. eapply handler_status, Hh. }
      destruct r eqn:Ht; try discriminate; simpl; rewrite Hkey.
      * apply (Hrest [validateProduct]). simpl. intros e.
        destruct (validateProduct req) eqn:Hv; [|discriminate].
        intros [= <-]. eapply validation_fails_with, Hv.
      * apply (Hrest [validateProduct]). simpl. intros e.
        destruct (validateProduct req) eqn:Hv; [|discriminate].
        intros [= <-]. eapply validation_fails_with, Hv.
      * apply (Hrest []). simpl. discriminate.
  - intros Hm. split.
    + destruct r; try discriminate; reflexivity.
    + intros h' [o'|]; [|reflexivity]. unfold receive, handle, handler; simpl.
      destruct r; try discriminate; reflexivity.
Qed.

Lemma auth_check_guards_mutations_witness :
  receive "u" seed (DeleteProduct "1") ∅ ∅ (Body ∅)
  = ({| status := 401;
        json := Failure "Authentication Error"
                  "Invalid or missing API key. Please provide a valid x-api-key header."
                  401 |},
     seed).
Proof.
  apply (proj1 (proj2 (auth_check_guards_mutations
                         "u" seed (DeleteProduct "1") ∅ ∅ ∅))).
  - reflexivity.
  - vm_compute. discriminate.
Defined.

(** ** Facts about [trim] *)

Section Trim.

Lemma append_nil (s : string) : EmptyString +:+ s = s.
Proof. reflexivity. Qed.

Lemma append_cons (c : ascii) (s t : string) :
  String c s +:+ t = String c (s +:+ t).
Proof. reflexivity. Qed.

Lemma append_empty (s : string) : s +:+ EmptyString = s.
Proof. induction s as [|c s IH]; [reflexivity|]. now rewrite append_cons, IH. Qed.

Lemma append_assoc (a b c : string) : (a +:+ b) +:+ c = a +:+ (b +:+ c).
Proof. induction a; rewrite ?append_nil, ?append_cons; congruence. Qed.

Lemma length_append (a b : string) :
  String.length (a +:+ b) = (String.length a + String.length b)%nat.
Proof. induction a as [|c a IH]; [reflexivity|]. rewrite append_cons. simpl. now rewrite IH. Qed.

Lemma reverse_append (a b : string) :
  JS.reverse (a +:+ b) = JS.reverse b +:+ JS.reverse a.
Proof.
  induction a as [|c a IH].
  - now rewrite append_nil, append_empty.
  - rewrite append_cons. simpl. now rewrite IH, append_assoc.
Qed.

Lemma reverse_reverse (s : string) : JS.reverse (JS.reverse s) = s.
Proof.
  induction s as [|c s IH]; [reflexivity|]. simpl.
  rewrite reverse_append, IH. reflexivity.
Qed.

Lemma length_reverse (s : string) : String.length (JS.reverse s) = String.length s.
Proof.
  induction s as [|c s IH]; [reflexivity|]. simpl.
  rewrite length_append, IH. simpl. lia.
Qed.

Lemma without_prefix_Some (t s r : string) :
  JS.without_prefix t s = Some r <-> s = t +:+ r.
Proof.
  revert s. induction t as [|a t IH]; intros s; simpl.
  - rewrite append_nil. split; [intros [= ->]; reflexivity | intros ->; reflexivity].
  - rewrite append_cons. destruct s as [|b s]; [split; discriminate|].
    destruct (Ascii.eqb_spec a b) as [->|Hne].
    + rewrite IH. split; [intros ->; reflexivity | intros [= ->]; reflexivity].
    + split; [discriminate | intros [= -> _]; contradiction].
Qed.

Section Tokens.

Variable ts : list string.

(** No token is empty, and a string that starts with a token starts with
    no other one. *)
Hypothesis nonempty : forall t, In t ts -> t <> EmptyString.
Hypothesis first : forall t s, In t ts -> JS.without_any ts (t +:+ s) = Some s.

Lemma without_any_Some (s r : string) :
  JS.without_any ts s = Some r -> exists t, In t ts /\ s = t +:+ r.
Proof.
  clear nonempty first. induction ts as [|t rest IH]; simpl; [discriminate|].
  destruct (JS.without_prefix t s) as [x|] eqn:Hx.
  - intros [= ->]. apply without_prefix_Some in Hx. eauto.
  - intros (t' & Hin & Hs)%IH. eauto.
Qed.

Lemma without_any_shorter (s r : string) :
  JS.without_any ts s = Some r -> (String.length r < String.length s)%nat.
Proof.
  intros (t & Hin & ->)%without_any_Some. rewrite length_append.
  specialize (nonempty t Hin). destruct t; [contradiction | simpl; lia].
Qed.

Lemma without_any_empty : JS.without_any ts EmptyString = None.
Proof.
  destruct (JS.without_any ts EmptyString) eqn:H; [|reflexivity].
  apply without_any_shorter in H. simpl in H. lia.
Qed.

Lemma skip_fuel (f g : nat) (s : string) :
  (String.length s <= f)%nat -> (String.length s <= g)%nat ->
  JS.skip f ts s = JS.skip g ts s.
Proof.
  revert g s. induction f as [|f IH]; intros [|g] s Hf Hg; simpl; try reflexivity.
  - destruct s; [|simpl in Hf; lia]. now rewrite without_any_empty.
  - destruct s; [|simpl in Hg; lia]. now rewrite without_any_empty.
  - destruct (JS.without_any ts s) as [r|] eqn:Hr; [|reflexivity].
    apply without_any_shorter in Hr. apply IH; lia.
Qed.

Lemma skip_split (f : nat) (s : string) :
  (String.length s <= f)%nat ->
  exists l, s = l +:+ JS.skip f ts s /\ Spec.made_of ts l
            /\ JS.without_any ts (JS.skip f ts s) = None.
Proof.
  revert s. induction f as [|f IH]; intros s Hf; simpl.
  - destruct s; [|simpl in Hf; lia]. exists EmptyString.
    split; [reflexivity|]. split; [constructor | apply without_any_empty].
  - destruct (JS.without_any ts s) as [r|] eqn:Hr.
    + pose proof (without_any_shorter s r Hr) as Hlen.
      apply without_any_Some in Hr as (t & Hin & ->).
      destruct (IH r) as (l & Hl & Hm & Hnone); [lia|].
      exists (t +:+ l). rewrite append_assoc, <- Hl.
      split; [reflexivity|]. split; [now constructor | assumption].
    + exists EmptyString. split; [reflexivity|]. split; [constructor | assumption].
Qed.

Lemma only_skip (f : nat) (s : string) :
  (String.length s <= f)%nat ->
  Spec.only f ts s = true <-> JS.skip f ts s = EmptyString.
Proof.
  revert s. induction f as [|f IH]; intros s Hf.
  - destruct s; [split; reflexivity | simpl in Hf; lia].
  - destruct s as [|c s]; simpl.
    + rewrite without_any_empty. split; reflexivity.
    + destruct (JS.without_any ts (String c s)) as [r|] eqn:Hr.
      * apply IH. apply without_any_shorter in Hr. simpl in Hr, Hf. lia.
      * split; discriminate.
Qed.

Lemma made_of_skip (l : string) :
  Spec.made_of ts l -> JS.skip (String.length l) ts l = EmptyString.
Proof.
  induction 1 as [|t s Hin Hs IH]; [reflexivity|].
  pose proof (nonempty t Hin) as Hne.
  destruct t as [|c t]; [contradiction|].
  rewrite append_cons. simpl String.length. simpl JS.skip.
  rewrite <- append_cons, (first _ s Hin).
  transitivity (JS.skip (String.length s) ts s); [|exact IH].
  apply skip_fuel; rewrite ?length_append; lia.
Qed.

Lemma made_of_only (l : string) :
  Spec.made_of ts l -> Spec.only (String.length l) ts l = true.
Proof. intros H. apply only_skip; [lia | now apply made_of_skip]. Qed.

Lemma made_of_app (a b : string) :
  Spec.made_of ts a -> Spec.made_of ts b -> Spec.made_of ts (a +:+ b).
Proof.
  induction 1 as [|t s Hin Hs IH]; intros Hb; [assumption|].
  rewrite append_assoc. constructor; auto.
Qed.

End Tokens.

Lemma made_of_reverse (ts : list string) (l : string) :
  Spec.made_of (map JS.reverse ts) l -> Spec.made_of ts (JS.reverse l).
Proof.
  induction 1 as [|t s Hin Hs IH]; [constructor|].
  rewrite reverse_append. apply made_of_app; [assumption|].
  apply in_map_iff in Hin as (t' & <- & Hin).
  rewrite reverse_reverse, <- (append_empty t'). constructor; [assumption | constructor].
Qed.

Lemma whitespace_nonempty (t : string) : In t JS.whitespace -> t <> EmptyString.
Proof.
  intros H. repeat (destruct H as [<-|H]; [discriminate|]). destruct H.
Qed.

Lemma whitespace_first (t s : string) :
  In t JS.whitespace -> JS.without_any JS.whitespace (t +:+ s) = Some s.
Proof.
  intros H. repeat (destruct H as [<-|H]; [reflexivity|]). destruct H.
Qed.

Lemma whitespace_reversed_nonempty (t : string) :
  In t (map JS.reverse JS.whitespace) -> t <> EmptyString.
Proof.
  intros H. repeat (destruct H as [<-|H]; [discriminate|]). destruct H.
Qed.

Lemma whitespace_reversed_first (t s : string) :
  In t (map JS.reverse JS.whitespace) ->
  JS.without_any (map JS.reverse JS.whitespace) (t +:+ s) = Some s.
Proof.
  intros H. repeat (destruct H as [<-|H]; [reflexivity|]). destruct H.
Qed.

Lemma trimStart_split (s : string) :
  exists leading,
    s = leading +:+ JS.trimStart s /\ Spec.blank leading = true
    /\ Spec.starts_with_whitespace (JS.trimStart s) = false.
Proof.
  destruct (skip_split JS.whitespace whitespace_nonempty (String.length s) s)
    as (l & Hs & Hl & Hnone); [lia|].
  exists l. split; [exact Hs|]. split.
  - apply (made_of_only _ whitespace_nonempty whitespace_first), Hl.
  - unfold Spec.starts_with_whitespace, JS.trimStart. now rewrite Hnone.
Qed.

Lemma trimEnd_split (s : string) :
  exists trailing,
    s = JS.trimEnd s +:+ trailing /\ Spec.blank trailing = true
    /\ Spec.ends_with_whitespace (JS.trimEnd s) = false.
Proof.
  destruct (skip_split _ whitespace_reversed_nonempty (String.length s) (JS.reverse s))
    as (l & Hs & Hl & Hnone); [rewrite length_reverse; lia|].
  exists (JS.reverse l). unfold JS.trimEnd. split; [|split].
  - rewrite <- reverse_append, <- Hs. symmetry. apply reverse_reverse.
  - apply (made_of_only _ whitespace_nonempty whitespace_first), made_of_reverse, Hl.
  - unfold Spec.ends_with_whitespace. now rewrite reverse_reverse, Hnone.
Qed.

Lemma without_any_None (ts : list string) (s : string) :
  JS.without_any ts s = None -> forall t r, In t ts -> s <> t +:+ r.
Proof.
  induction ts as [|t' rest IH]; simpl; [intros _ t r []|].
  destruct (JS.without_prefix t' s) as [x|] eqn:Hx; [discriminate|].
  intros H t r [<-|Hin] Hs.
  - apply without_prefix_Some in Hs. congruence.
  - eapply IH; eassumption.
Qed.

Lemma trimEnd_keeps_start (s : string) :
  Spec.starts_with_whitespace s = false ->
  Spec.starts_with_whitespace (JS.trimEnd s) = false.
Proof.
  unfold Spec.starts_with_whitespace.
  destruct (JS.without_any JS.whitespace s) eqn:Hs; [discriminate|]. intros _.
  destruct (JS.without_any JS.whitespace (JS.trimEnd s)) as [x|] eqn:Hx; [|reflexivity].
  apply without_any_Some in Hx as (t & Hin & Hx).
  destruct (trimEnd_split s) as (r & Hr & _).
  exfalso. apply (without_any_None _ _ Hs t (x +:+ r) Hin).
  now rewrite <- append_assoc, <- Hx.
Qed.

Lemma trim_trimmed (s : string) : Spec.trimmed_of s (JS.trim s).
Proof.
  unfold JS.trim.
  destruct (trimStart_split s) as (l & Hs & Hl & Hst).
  destruct (trimEnd_split (JS.trimStart s)) as (t & Hs' & Ht & Hend).
  exists l, t. repeat split; auto using trimEnd_keeps_start.
  rewrite <- Hs'. exact Hs.
Qed.

Lemma blank_trimStart (s : string) :
  Spec.blank s = true <-> JS.trimStart s = EmptyString.
Proof. apply (only_skip _ whitespace_nonempty). lia. Qed.

(** A blank string is a sequence of white space characters, and nothing
    else is. *)
Lemma blank_iff (s : string) :
  Spec.blank s = true <-> Spec.made_of JS.whitespace s.
Proof.
  split.
  - intros Hb%blank_trimStart.
    destruct (skip_split JS.whitespace whitespace_nonempty (String.length s) s)
      as (l & Hs & Hl & _); [lia|].
    unfold JS.trimStart in Hb. rewrite Hb, append_empty in Hs. now rewrite Hs.
  - apply (made_of_only _ whitespace_nonempty whitespace_first).
Qed.

Lemma blank_starts (s : string) :
  Spec.blank s = true -> s <> EmptyString -> Spec.starts_with_whitespace s = true.
Proof.
  unfold Spec.blank, Spec.starts_with_whitespace.
  destruct s as [|c s]; [contradiction|]. cbn [Spec.only String.length].
  now destruct (JS.without_any JS.whitespace (String c s)).
Qed.

Lemma blank_trim (s : string) : Spec.blank s = true <-> JS.trim s = EmptyString.
Proof.
  rewrite blank_trimStart. unfold JS.trim. split.
  - intros ->. reflexivity.
  - intros Ht. destruct (trimStart_split s) as (_ & _ & _ & Hst).
    destruct (trimEnd_split (JS.trimStart s)) as (r & Hr & Hb & _).
    rewrite Ht, append_nil in Hr.
    destruct (JS.trimStart s) as [|c t] eqn:Hs; [reflexivity|].
    rewrite <- Hr in Hb. rewrite (blank_starts _ Hb) in Hst; discriminate.
Qed.

Lemma not_text_blank (v : JS.value) :
  not_text v = negb (Spec.non_blank_string v).
Proof.
  destruct v as [| |b|n|s|]; unfold not_text; simpl;
    rewrite ?orb_true_r; try reflexivity.
  rewrite negb_involutive.
  destruct (Spec.blank s) eqn:Hb.
  - apply blank_trim in Hb. rewrite Hb. simpl. apply orb_true_r.
  - destruct s as [|c s]; [discriminate|]. simpl.
    destruct (JS.trim (String c s)) as [|d r] eqn:Ht; [|reflexivity].
    apply blank_trim in Ht. congruence.
Qed.

End Trim.

(** ** Facts about validation *)

Lemma not_price_number (v : JS.value) :
  not_price v = negb (Spec.non_negative_number v).
Proof. destruct v; reflexivity. Qed.

Lemma not_boolean (v : JS.value) :
  negb (is_type v JS.TBoolean) = negb (Spec.boolean v).
Proof. destruct v; reflexivity. Qed.

(** The validator returns the message of the first broken rule. *)
Lemma validateProduct_first_failure (req : request) :
  validateProduct req
  = (fun r => ValidationError (Spec.message r))
      <$> Spec.first_failure Spec.non_blank_string (body req).
Proof.
  unfold validateProduct, Spec.first_failure, Spec.rules, Spec.holds; simpl.
  rewrite !not_text_blank, not_price_number, not_boolean.
  repeat match goal with
         | |- context [negb ?b] => destruct b; simpl; try reflexivity
         end.
Qed.

(** What an accepted payload looks like, and what the handlers read
    from it. *)
Lemma validateProduct_accepts (req : request) :
  validateProduct req = None ->
  exists n d p c s,
    property (body req) "name" = JS.JString n
    /\ property (body req) "description" = JS.JString d
    /\ property (body req) "price" = JS.JNumber p
    /\ property (body req) "category" = JS.JString c
    /\ property (body req) "inStock" = JS.JBool s
    /\ Spec.blank n = false /\ Spec.blank d = false /\ Spec.blank c = false
    /\ (0 <= p)%Q
    /\ fields (body req) = Some (JS.trim n, JS.trim d, p, JS.trim c, s).
Proof.
  rewrite validateProduct_first_failure.
  unfold Spec.first_failure, Spec.rules, Spec.holds, fields; simpl.
  destruct (property (body req) "name") as [| | | |n|]; simpl; try discriminate.
  destruct (Spec.blank n) eqn:Hn; simpl; try discriminate.
  destruct (property (body req) "description") as [| | | |d|]; simpl; try discriminate.
  destruct (Spec.blank d) eqn:Hd; simpl; try discriminate.
  destruct (property (body req) "price") as [| | |p| |]; simpl; try discriminate.
  destruct (Qle_bool 0 p) eqn:Hp; simpl; try discriminate.
  destruct (property (body req) "category") as [| | | |c|]; simpl; try discriminate.
  destruct (Spec.blank c) eqn:Hc; simpl; try discriminate.
  destruct (property (body req) "inStock") as [| |s| | |]; simpl; try discriminate.
  intros _. exists n, d, p, c, s. repeat split; auto.
  now apply Qle_bool_iff.
Qed.

(** ** The three mutating routes, step by step *)

Section Mutations.

Context {builtins : JS.Builtins}.

Variables (uuid : string) (products : list product) (req : request).

Lemma handle_create :
  target req = CreateProduct ->
  handle uuid products req
  = match authMiddleware req with
    | Some e => (errorHandler e, products)
    | None =>
        match validateProduct req with
        | Some e => (errorHandler e, products)
        | None => let '(o, products') := createProduct uuid products req in
                  (respond o, products')
        end
    end.
Proof.
  intros Ht. unfold handle, handler. rewrite Ht. simpl.
  destruct (authMiddleware req); [reflexivity|].
  destruct (validateProduct req); reflexivity.
Qed.

Lemma handle_update i :
  target req = UpdateProduct i ->
  handle uuid products req
  = match authMiddleware req with
    | Some e => (errorHandler e, products)
    | None =>
        match validateProduct req with
        | Some e => (errorHandler e, products)
        | None => let '(o, products') := updateProduct products i req in
                  (respond o, products')
        end
    end.
Proof.
  intros Ht. unfold handle, handler. rewrite Ht. simpl.
  destruct (authMiddleware req); [reflexivity|].
  destruct (validateProduct req); reflexivity.
Qed.

Lemma handle_delete i :
  target req = DeleteProduct i ->
  handle uuid products req
  = match authMiddleware req with
    | Some e => (errorHandler e, products)
    | None => let '(o, products') := deleteProduct products i in
              (respond o, products')
    end.
Proof.
  intros Ht. unfold handle, handler. rewrite Ht. simpl.
  destruct (authMiddleware req); reflexivity.
Qed.

Lemma create_accepted resp products' :
  target req = CreateProduct ->
  handle uuid products req = (resp, products') ->
  status resp = 201 ->
  exists n d p c s,
    property (body req) "name" = JS.JString n
    /\ property (body req) "description" = JS.JString d
    /\ property (body req) "price" = JS.JNumber p
    /\ property (body req) "category" = JS.JString c
    /\ property (body req) "inStock" = JS.JBool s
    /\ resp = created (stored uuid n d p c s)
    /\ products' = (products ++ [stored uuid n d p c s])%list.
Proof.
  intros Ht. rewrite (handle_create Ht).
  destruct (authMiddleware req) as [e|] eqn:Ha.
  { apply auth_fails_with in Ha as ->. intros [= <- <-]. discriminate. }
  destruct (validateProduct req) as [e|] eqn:Hv.
  { apply validation_fails_with in Hv as [m ->]. intros [= <- <-]. discriminate. }
  destruct (validateProduct_accepts req Hv)
    as (n & d & p & c & s & Hn & Hd & Hp & Hc & Hs & _ & _ & _ & _ & Hf).
  unfold createProduct. rewrite Hf. intros [= <- <-] _.
  exists n, d, p, c, s. repeat split; assumption.
Qed.

Lemma update_accepted i resp products' :
  target req = UpdateProduct i ->
  handle uuid products req = (resp, products') ->
  status resp = 200 ->
  exists idx old n d p c s,
    JS.findIndex (has_id i) products = Some idx
    /\ products !! idx = Some old /\ id old = i
    /\ property (body req) "name" = JS.JString n
    /\ property (body req) "description" = JS.JString d
    /\ property (body req) "price" = JS.JNumber p
    /\ property (body req) "category" = JS.JString c
    /\ property (body req) "inStock" = JS.JBool s
    /\ resp = updated (stored i n d p c s)
    /\ products' = <[idx := stored i n d p c s]> products.
Proof.
  intros Ht. rewrite (handle_update i Ht).
  destruct (authMiddleware req) as [e|] eqn:Ha.
  { apply auth_fails_with in Ha as ->. intros [= <- <-]. discriminate. }
  destruct (validateProduct req) as [e|] eqn:Hv.
  { apply validation_fails_with in Hv as [m ->]. intros [= <- <-]. discriminate. }
  destruct (validateProduct_accepts req Hv)
    as (n & d & p & c & s & Hn & Hd & Hp & Hc & Hs & _ & _ & _ & _ & Hf).
  unfold updateProduct. fold (has_id i).
  destruct (JS.findIndex (has_id i) products) as [idx|] eqn:Hi.
  2:{ intros [= <- <-]. discriminate. }
  destruct (findIndex_Some _ _ _ Hi) as (old & Hold & Hid & _).
  apply String.eqb_eq in Hid.
  rewrite Hold, Hf, Hid. intros [= <- <-] _.
  exists idx, old, n, d, p, c, s. repeat split; assumption.
Qed.

(** Any answer of the update route other than 200 leaves the array
    alone. *)
Lemma update_refused i resp products' :
  target req = UpdateProduct i ->
  handle uuid products req = (resp, products') ->
  status resp <> 200 ->
  products' = products.
Proof.
  intros Ht. rewrite (handle_update i Ht).
  destruct (authMiddleware req); [now intros [= <- <-]|].
  destruct (validateProduct req); [now intros [= <- <-]|].
  unfold updateProduct.
  destruct (JS.findIndex _ products); [|now intros [= <- <-]].
  destruct (products !! n); [|now intros [= <- <-]].
  destruct (fields (body req)) as [[[[[? ?] ?] ?] ?]|]; intros [= <- <-];
    [intros H; now destruct H | reflexivity].
Qed.

End Mutations.

Lemma find_first {A : Type} (f : A -> bool) (l : list A) (x : A) :
  List.find f l = Some x ->
  exists before after,
    l = (before ++ x :: after)%list /\ f x = true
    /\ Forall (fun y => f y = false) before.
Proof.
  induction l as [|a l IH]; simpl; [discriminate|].
  destruct (f a) eqn:Hfa.
  - intros [= <-]. exists [], l. auto.
  - intros (before & after & -> & Hx & Hb)%IH.
    exists (a :: before), after. auto.
Qed.

Lemma find_none {A : Type} (f : A -> bool) (l : list A) :
  List.find f l = None <-> Forall (fun y => f y = false) l.
Proof.
  induction l as [|a l IH]; simpl.
  - split; [constructor | reflexivity].
  - destruct (f a) eqn:Hfa.
    + split; [discriminate|]. intros H. inversion H; congruence.
    + rewrite IH. split; [now constructor | intros H; now inversion H].
Qed.

Lemma missing_property (o : gmap string JS.value) (k : string) :
  o !! k = None -> property o k = JS.JUndefined.
Proof. unfold property. now intros ->. Qed.

(** ** C3: updating an identifier that is not in the array *)

(** C3. A PUT on an identifier that no product of the array has, sent
    with the right key and a payload that passes validation, is answered
    with the 404 Not Found error, and the array is returned exactly as it
    was. *)
Theorem update_unknown_id {builtins : JS.Builtins}
  (uuid : string) (products : list product) (i : string) (req : request) :
  target req = UpdateProduct i ->
  headers req !! "x-api-key" = Some secret ->
  validateProduct req = None ->
  i ∉ map id products ->
  handle uuid products req
  = ({| status := 404;
        json := Failure "Not Found" ("Product with ID " +:+ i +:+ " not found") 404 |},
     products).
Proof.
  intros Ht Hkey%auth_passes_iff Hv Hi.
  rewrite (handle_update uuid products req i Ht), Hkey, Hv.
  unfold updateProduct.
  replace (JS.findIndex _ products) with (@None nat); [reflexivity|].
  symmetry. apply findIndex_None. intros p Hp.
  apply String.eqb_neq. intros <-. apply Hi.
  apply list_elem_of_fmap. eauto.
Qed.

Lemma update_unknown_id_witness :
  handle "u" seed (submit (UpdateProduct "9") key_header desk)
  = ({| status := 404;
        json := Failure "Not Found" "Product with ID 9 not found" 404 |},
     seed).
Proof.
  apply (update_unknown_id "u" seed "9" (submit (UpdateProduct "9") key_header desk)).
  - reflexivity.
  - vm_compute. reflexivity.
  - vm_compute. reflexivity.
  - apply (bool_decide_unpack _). vm_compute. exact I.
Defined.

(** ** C5: the validator *)

(** C5, as worded, fails: a name of one space is a non-empty string, so
    all five rules as worded hold of this payload, yet the validator
    rejects it on the name rule. *)
Lemma worded_rules_accept_blank_name :
  Spec.first_failure Spec.non_empty_string blank_name = None
  /\ validateProduct (submit CreateProduct key_header blank_name)
     = Some (ValidationError "Name is required and must be a non-empty string").
Proof. split; vm_compute; reflexivity. Qed.

(** C5, amended. The validator checks five rules in the order name,
    description, price, category, inStock, where a text rule asks for a
    string that is not only white space, the price rule for a number that
    is at least 0 and the inStock rule for a boolean.  It returns the
    message of the first rule that fails, and only that one: every rule
    before it holds.  A payload is accepted exactly when all five rules
    hold. *)
Theorem validator_reports_first_failure (req : request) :
  Spec.rules = [Spec.Name; Spec.Description; Spec.Price; Spec.Category; Spec.InStock]
  /\ (forall r,
        Spec.first_failure Spec.non_blank_string (body req) = Some r ->
        validateProduct req = Some (ValidationError (Spec.message r))
        /\ Spec.holds Spec.non_blank_string (body req) r = false
        /\ exists before after,
             Spec.rules = (before ++ r :: after)%list
             /\ Forall (fun r' => Spec.holds Spec.non_blank_string (body req) r' = true)
                  before)
  /\ (validateProduct req = None
      <-> Forall (fun r => Spec.holds Spec.non_blank_string (body req) r = true)
            Spec.rules)
  /\ (forall e, validateProduct req = Some e ->
        exists r, e = ValidationError (Spec.message r)
                  /\ Spec.first_failure Spec.non_blank_string (body req) = Some r).
Proof.
  split; [reflexivity|]. split; [|split].
  - intros r Hr. split; [now rewrite validateProduct_first_failure, Hr|].
    destruct (find_first _ _ _ Hr) as (before & after & Hl & Hx & Hb).
    split; [now apply negb_true_iff|].
    exists before, after. split; [assumption|].
    eapply Forall_impl; [exact Hb|]. intros r' H. now apply negb_false_iff.
  - rewrite validateProduct_first_failure. unfold Spec.first_failure.
    destruct (List.find _ Spec.rules) as [r|] eqn:Hf; simpl.
    + split; [discriminate|]. intros Hall.
      assert (Hn : List.find
                (fun r => negb (Spec.holds Spec.non_blank_string (body req) r))
                Spec.rules = None).
      { apply find_none. eapply Forall_impl; [exact Hall|].
        intros r' H. now apply negb_false_iff. }
      congruence.
    + split; [|reflexivity]. intros _. apply find_none in Hf.
      eapply Forall_impl; [exact Hf|]. intros r' H. now apply negb_false_iff.
  - intros e. rewrite validateProduct_first_failure.
    destruct (Spec.first_failure _ _) as [r|]; simpl; [|discriminate].
    intros [= <-]. eauto.
Qed.

Lemma validator_reports_first_failure_witness :
  validateProduct (submit CreateProduct key_header blank_name)
  = Some (ValidationError (Spec.message Spec.Name)).
Proof.
  apply (proj1 (proj2 (validator_reports_first_failure
                         (submit CreateProduct key_header blank_name)))).
  vm_compute. reflexivity.
Defined.

(** ** C7: what an update changes *)

(** C7, as worded, fails: the name supplied here is [" Laptop "], the
    update is accepted, and the name stored at the product's index is
    ["Laptop"]. *)
Lemma update_does_not_store_supplied_name :
  property padded_laptop "name" = JS.JString " Laptop "
  /\ status (fst (handle "u" seed (submit (UpdateProduct "1") key_header padded_laptop)))
     = 200
  /\ name <$> snd (handle "u" seed (submit (UpdateProduct "1") key_header padded_laptop))
              !! 0%nat
     = Some "Laptop"
  /\ "Laptop" <> " Laptop ".
Proof. repeat split; try (vm_compute; reflexivity). discriminate. Qed.

(** C7, amended. A PUT answered with 200 found a product with the
    requested identifier; at its index it stores a record with that same
    identifier, the supplied price and inStock, and the supplied name,
    description and category with their leading and trailing white space
    removed.  Every other index, the length of the array and the sequence
    of identifiers are unchanged.  A payload that omits one of the five
    properties is never answered with 200, and any answer other than 200
    leaves the array as it was. *)
Theorem update_replaces_all_fields {builtins : JS.Builtins}
  (uuid : string) (products : list product) (i : string) (req : request)
  (resp : response) (products' : list product) :
  target req = UpdateProduct i ->
  handle uuid products req = (resp, products') ->
  (status resp = 200 ->
   exists idx old n d p c s,
     products !! idx = Some old /\ id old = i
     /\ property (body req) "name" = JS.JString n
     /\ property (body req) "description" = JS.JString d
     /\ property (body req) "price" = JS.JNumber p
     /\ property (body req) "category" = JS.JString c
     /\ property (body req) "inStock" = JS.JBool s
     /\ products' !! idx
        = Some {| id := id old; name := JS.trim n; description := JS.trim d;
                  price := p; category := JS.trim c; inStock := s |}
     /\ (forall j, j <> idx -> products' !! j = products !! j)
     /\ length products' = length products
     /\ map id products' = map id products)
  /\ ((exists r, body req !! Spec.key r = None) -> status resp <> 200)
  /\ (status resp <> 200 -> products' = products).
Proof.
  intros Ht Hh. split; [|split].
  - intros H200.
    destruct (update_accepted uuid products req i resp products' Ht Hh H200)
      as (idx & old & n & d & p & c & s & _ & Hold & Hid & Hn & Hd & Hp & Hc & Hs
          & _ & ->).
    exists idx, old, n, d, p, c, s. rewrite Hid.
    repeat split; try assumption.
    + apply list_lookup_insert_eq. eapply lookup_lt_Some, Hold.
    + intros j Hj. now apply list_lookup_insert_ne.
    + apply length_insert.
    + rewrite list_fmap_insert. simpl. rewrite <- Hid.
      apply list_insert_id. now rewrite list_lookup_fmap, Hold.
  - intros [r Hr] H200.
    destruct (update_accepted uuid products req i resp products' Ht Hh H200)
      as (idx & old & n & d & p & c & s & _ & _ & _ & Hn & Hd & Hp & Hc & Hs & _).
    apply missing_property in Hr.
    destruct r; simpl in Hr; congruence.
  - intros Hne. eapply update_refused; eassumption.
Qed.

Lemma update_replaces_all_fields_witness :
  exists idx old n d p c s,
    seed !! idx = Some old /\ id old = "3"
    /\ property desk "name" = JS.JString n
    /\ property desk "description" = JS.JString d
    /\ property desk "price" = JS.JNumber p
    /\ property desk "category" = JS.JString c
    /\ property desk "inStock" = JS.JBool s
    /\ snd (handle "u" seed (submit (UpdateProduct "3") key_header desk)) !! idx
       = Some {| id := id old; name := JS.trim n; description := JS.trim d;
                 price := p; category := JS.trim c; inStock := s |}
    /\ (forall j, j <> idx ->
        snd (handle "u" seed (submit (UpdateProduct "3") key_header desk)) !! j
        = seed !! j)
    /\ length (snd (handle "u" seed (submit (UpdateProduct "3") key_header desk)))
       = length seed
    /\ map id (snd (handle "u" seed (submit (UpdateProduct "3") key_header desk)))
       = map id seed.
Proof.
  apply (proj1 (update_replaces_all_fields "u" seed "3"
                  (submit (UpdateProduct "3") key_header desk)
                  (fst (handle "u" seed (submit (UpdateProduct "3") key_header desk)))
                  (snd (handle "u" seed (submit (UpdateProduct "3") key_header desk)))
                  eq_refl (surjective_pairing _))).
  vm_compute. reflexivity.
Defined.

(** ** C10: what is stored *)



(** The white space that [trim] knows is that of Unicode: a name made of
    U+00A0 and U+3000 is refused, and a name and a category padded with
    U+00A0 and U+FEFF are stored without them. *)
Example unicode_white_space :
  validateProduct (submit CreateProduct key_header wide_blank_name)
  = Some (ValidationError (Spec.message Spec.Name))
  /\ snd (handle "u" [] (submit CreateProduct key_header wide_padded_desk))
     = [{| id := "u"; name := "Desk"; description := "Standing desk";
           price := 450; category := "furniture"; inStock := true |}].
Proof. split; vm_compute; reflexivity. Qed.

(** ** The identifiers in the array *)

Section Identifiers.

Context {builtins : JS.Builtins}.

Variables (uuid : string) (products : list product) (req : request).



End Identifiers.



Lemma seed_unique : NoDup (map id seed).
Proof. apply (bool_decide_unpack _). vm_compute. exact I. Qed.

(** ** C9: identifiers stay unique *)




(** ** Facts about [slice] *)

Section Slice.

Context {A : Type}.

Lemma window_from_take_drop (l : list A) (i a b : Z) :
  Spec.window_from i a b l
  = take (Z.to_nat (b - i) - Z.to_nat (a - i)) (drop (Z.to_nat (a - i)) l).
Proof.
  revert i. induction l as [|x l IH]; intros i; simpl.
  - now rewrite drop_nil, take_nil.
  - rewrite IH. destruct (Z.leb_spec a i), (Z.ltb_spec i b); simpl.
    + replace (Z.to_nat (a - i)) with 0%nat by lia.
      replace (Z.to_nat (a - (i + 1))) with 0%nat by lia.
      replace (Z.to_nat (b - i)) with (S (Z.to_nat (b - (i + 1)))) by lia.
      rewrite !Nat.sub_0_r. reflexivity.
    + replace (Z.to_nat (b - i)) with 0%nat by lia.
      replace (Z.to_nat (b - (i + 1))) with 0%nat by lia.
      reflexivity.
    + replace (Z.to_nat (a - i)) with (S (Z.to_nat (a - (i + 1)))) by lia.
      simpl. f_equal. lia.
    + replace (Z.to_nat (a - i)) with (S (Z.to_nat (a - (i + 1)))) by lia.
      simpl. f_equal. lia.
Qed.

(** With bounds that are not negative, [slice] is the index window. *)
Lemma slice_window (l : list A) (a b : Z) :
  0 <= a -> 0 <= b -> JS.slice l a b = Spec.window a b l.
Proof.
  intros Ha Hb. unfold JS.slice, JS.relative_index, Spec.window.
  rewrite window_from_take_drop, !Z.sub_0_r.
  destruct (Z.ltb_spec a 0), (Z.ltb_spec b 0); try lia.
  destruct (Z.le_gt_cases (Z.of_nat (length l)) a) as [Hge|Hlt].
  - rewrite !drop_ge by lia. now rewrite !take_nil.
  - replace (Z.min a (Z.of_nat (length l))) with a by lia.
    destruct (Z.le_gt_cases b (Z.of_nat (length l))) as [Hble|Hbgt].
    + f_equal. lia.
    + rewrite !take_ge; [reflexivity | rewrite length_drop; lia..].
Qed.

Lemma slice_sublist (l : list A) (a b : Z) : JS.slice l a b `sublist_of` l.
Proof.
  unfold JS.slice. etransitivity; [apply sublist_take | apply sublist_drop].
Qed.

End Slice.

(** ** C2: pagination *)

(** C2, as worded, fails: with [limit=-2] (and the default page 1) the
    bounds are 0 and -2, no index lies in [[0, -2)], and the answer holds
    the first three of the five products. *)
Lemma negative_limit_is_not_a_window :
  exists pagination,
    fst (handle "u" seed (fetch GetProducts {["limit" := "-2"]}))
    = {| status := 200; json := ProductPage (take 3 seed) pagination |}
    /\ page_of {["limit" := "-2"]} = 1
    /\ limit_of {["limit" := "-2"]} = -2
    /\ filteredProducts seed {["limit" := "-2"]} = seed
    /\ Spec.window ((1 - 1) * -2) (1 * -2) seed = [].
Proof. eexists. repeat split; vm_compute; reflexivity. Qed.

(** C2, amended. GET /api/products answers 200 with a page of the
    filtered list.  The page number and the limit are what [parseInt]
    reads from the parameter when that is an integer other than 0; the
    page number is 1 and the limit 10 when the parameter is absent, when
    [parseInt] finds no number in it and when it finds 0, so neither is
    ever 0.  For a page number and a limit within the range of the exact
    integers: whenever both bounds (page-1)*limit and page*limit are not
    negative, in particular whenever page and limit are both at least 1,
    the page holds exactly the elements whose index lies in
    [(page-1)*limit, page*limit); totalPages is the ceiling of
    filteredCount/limit, totalProducts is the filtered count,
    hasNextPage is true exactly when page*limit < filteredCount and
    hasPrevPage exactly when page > 1.  With page 2 and limit 2 the page
    holds the third and fourth filtered products, and hasNextPage is
    true exactly when a fifth one exists. *)
Theorem pagination_window {builtins : JS.Builtins}
  (uuid : string) (products : list product) (req : request) :
  target req = GetProducts ->
  let filtered := filteredProducts products (query req) in
  let page := page_of (query req) in
  let limit := limit_of (query req) in
  let count := Z.of_nat (length filtered) in
  JS.safe page -> JS.safe limit ->
  (query req !! "page" = None -> page = 1)
  /\ (query req !! "limit" = None -> limit = 10)
  /\ (JS.parseInt (query req !! "page") = None
      \/ JS.parseInt (query req !! "page") = Some 0 -> page = 1)
  /\ (JS.parseInt (query req !! "limit") = None
      \/ JS.parseInt (query req !! "limit") = Some 0 -> limit = 10)
  /\ (forall n, JS.parseInt (query req !! "page") = Some n -> n <> 0 -> page = n)
  /\ (forall n, JS.parseInt (query req !! "limit") = Some n -> n <> 0 -> limit = n)
  /\ page <> 0 /\ limit <> 0
  /\ exists paginated pagination,
      handle uuid products req
      = ({| status := 200; json := ProductPage paginated pagination |}, products)
      /\ (0 <= (page - 1) * limit -> 0 <= page * limit ->
          paginated = Spec.window ((page - 1) * limit) (page * limit) filtered)
      /\ (1 <= page -> 1 <= limit ->
          paginated = Spec.window ((page - 1) * limit) (page * limit) filtered)
      /\ Pagination.currentPage pagination = page
      /\ Spec.is_ceiling (inject_Z count / inject_Z limit)
           (Pagination.totalPages pagination)
      /\ Pagination.totalProducts pagination = length filtered
      /\ (Pagination.hasNextPage pagination = true <-> page * limit < count)
      /\ (Pagination.hasPrevPage pagination = true <-> 1 < page)
      /\ (page = 2 -> limit = 2 ->
          paginated = take 2 (drop 2 filtered)
          /\ (Pagination.hasNextPage pagination = true
              <-> is_Some (filtered !! 4%nat))).
Proof.
  intros Ht filtered page limit count _ _.
  assert (Hdefault : forall v d, d <> 0 -> JS.or_default v d <> 0).
  { intros [v|] d Hd; simpl; [|assumption].
    destruct (Z.eqb_spec v 0); assumption. }
  assert (Hparsed : forall v d n, v = Some n -> n <> 0 -> JS.or_default v d = n).
  { intros v d n -> Hn. simpl. now destruct (Z.eqb_spec n 0). }
  assert (Hunusable : forall v d, v = None \/ v = Some 0 -> JS.or_default v d = d).
  { intros v d [-> | ->]; reflexivity. }
  split; [|split; [|split; [|split; [|split; [|split; [|split; [|split]]]]]]].
  - subst page. unfold page_of. now intros ->.
  - subst limit. unfold limit_of. now intros ->.
  - apply Hunusable.
  - apply Hunusable.
  - intros n. apply Hparsed.
  - intros n. apply Hparsed.
  - apply Hdefault. discriminate.
  - apply Hdefault. discriminate.
  - unfold handle, handler. rewrite Ht. simpl. unfold getProducts.
    fold filtered page limit count. eexists _, _. split; [reflexivity|]. simpl.
    assert (Hwin : 0 <= (page - 1) * limit -> 0 <= page * limit ->
                   JS.slice filtered ((page - 1) * limit) (page * limit)
                   = Spec.window ((page - 1) * limit) (page * limit) filtered)
      by apply slice_window.
    split; [exact Hwin|]. split; [intros; apply Hwin; nia|].
    split; [reflexivity|]. split.
    { unfold Spec.is_ceiling, JS.Math_ceil.
      split; [apply Qle_ceiling | apply Qceiling_lt]. }
    split; [reflexivity|]. split; [apply Z.ltb_lt|]. split; [apply Z.ltb_lt|].
    intros -> ->. split.
    + rewrite slice_window by lia. unfold Spec.window.
      rewrite window_from_take_drop. reflexivity.
    + rewrite Z.ltb_lt, lookup_lt_is_Some. subst count. lia.
Qed.

Lemma pagination_window_witness :
  exists paginated pagination,
    handle "u" seed (fetch GetProducts {["limit" := "2"; "page" := "2"]})
    = ({| status := 200; json := ProductPage paginated pagination |}, seed)
    /\ paginated = take 2 (drop 2 seed)
    /\ Pagination.hasNextPage pagination = true.
Proof.
  destruct (pagination_window "u" seed
              (fetch GetProducts {["limit" := "2"; "page" := "2"]}) eq_refl)
    as (_ & _ & _ & _ & _ & _ & _ & _ & paginated & pagination & Hh
        & _ & _ & _ & _ & _ & _ & _ & H22).
  - split; vm_compute; discriminate.
  - split; vm_compute; discriminate.
  - exists paginated, pagination. split; [exact Hh|].
    destruct H22 as [Hp Hn]; [vm_compute; reflexivity..|].
    split; [exact Hp|]. apply Hn. vm_compute. eauto.
Defined.

(** ** Facts about case *)

Section Case.

Lemma lower_char_code (c : ascii) :
  nat_of_ascii (JS.lower_char c)
  = if ((65 <=? nat_of_ascii c) && (nat_of_ascii c <=? 90))%nat
    then (nat_of_ascii c + 32)%nat else nat_of_ascii c.
Proof.
  unfold JS.lower_char.
  destruct ((65 <=? nat_of_ascii c) && (nat_of_ascii c <=? 90))%nat eqn:Hc;
    [|reflexivity].
  apply andb_prop in Hc as [_ Hle%Nat.leb_le].
  apply nat_ascii_embedding. lia.
Qed.

Lemma nat_of_ascii_inj (c d : ascii) : nat_of_ascii c = nat_of_ascii d -> c = d.
Proof.
  intros H. rewrite <- (ascii_nat_embedding c), <- (ascii_nat_embedding d).
  now rewrite H.
Qed.

Lemma same_letter_lower (c d : ascii) :
  JS.same_letter c d = true <-> JS.lower_char c = JS.lower_char d.
Proof.
  transitivity (nat_of_ascii (JS.lower_char c) = nat_of_ascii (JS.lower_char d));
    [|split; [apply nat_of_ascii_inj | congruence]].
  rewrite !lower_char_code. unfold JS.same_letter.
  rewrite !orb_true_iff, !andb_true_iff, !Nat.eqb_eq, !Nat.leb_le.
  destruct (Nat.leb_spec 65 (nat_of_ascii c)), (Nat.leb_spec (nat_of_ascii c) 90),
    (Nat.leb_spec 65 (nat_of_ascii d)), (Nat.leb_spec (nat_of_ascii d) 90);
    simpl; lia.
Qed.

(** The comparison of the lower-cased strings is equality up to case. *)
Lemma equal_up_to_case_lower (s t : string) :
  JS.equal_up_to_case s t = true <-> JS.lower_ascii s = JS.lower_ascii t.
Proof.
  revert t. induction s as [|c s IH]; intros [|d t]; simpl;
    try (split; [reflexivity | reflexivity]); try (split; discriminate).
  rewrite andb_true_iff, same_letter_lower, IH.
  split; [intros [-> ->]; reflexivity | intros [= -> ->]; auto].
Qed.

Lemma lower_ascii_append (s t : string) :
  JS.lower_ascii (s +:+ t) = JS.lower_ascii s +:+ JS.lower_ascii t.
Proof.
  induction s as [|c s IH]; [reflexivity|].
  rewrite append_cons. simpl. now rewrite IH, append_cons.
Qed.

Lemma lower_ascii_split (s x y : string) :
  JS.lower_ascii s = x +:+ y ->
  exists a b, s = a +:+ b /\ JS.lower_ascii a = x /\ JS.lower_ascii b = y.
Proof.
  revert s. induction x as [|c x IH]; intros s.
  - rewrite append_nil. intros H. exists EmptyString, s. auto.
  - rewrite append_cons. destruct s as [|d s]; simpl; [discriminate|].
    intros [= Hc (a & b & -> & <- & <-)%IH].
    exists (String d a), b. rewrite append_cons. simpl. rewrite Hc. auto.
Qed.

Lemma ascii_builtins_lowering : JS.ascii_lowering.
Proof. intros s _. reflexivity. Qed.

Lemma ascii_builtins_case : JS.case_insensitive.
Proof. intros s t. apply equal_up_to_case_lower. Qed.

End Case.

(** ** Facts about the filters *)

Lemma filter_elem_of {A : Type} (f : A -> bool) (l : list A) (x : A) :
  x ∈ List.filter f l <-> x ∈ l /\ f x = true.
Proof. rewrite !list_elem_of_In. apply filter_In. Qed.

Lemma filter_sublist {A : Type} (f : A -> bool) (l : list A) :
  List.filter f l `sublist_of` l.
Proof.
  induction l as [|a l IH]; simpl; [constructor|].
  destruct (f a); now constructor.
Qed.

Lemma filter_filter_sublist {A : Type} (f g : A -> bool) (l : list A) :
  List.filter g (List.filter f l) `sublist_of` List.filter g l.
Proof.
  induction l as [|a l IH]; simpl; [constructor|].
  destruct (f a), (g a) eqn:Hg; simpl; rewrite ?Hg;
    try assumption; now constructor.
Qed.

Section Filters.

Context {builtins : JS.Builtins}.

Variables (q : gmap string string) (l : list product).

Lemma filterByCategory_elem (p : product) :
  p ∈ filterByCategory q l
  <-> p ∈ l /\ forall c, q !! "category" = Some c -> c <> EmptyString ->
                         JS.toLowerCase (category p) = JS.toLowerCase c.
Proof.
  unfold filterByCategory. destruct (q !! "category") as [c|].
  - destruct (String.eqb_spec c EmptyString) as [->|Hne].
    + split; [intros Hp; split; [assumption|]; intros c [= <-] Hc; now destruct Hc
             | now intros [Hp _]].
    + rewrite filter_elem_of, String.eqb_eq. split; intros [Hp Hc]; split; auto.
      intros c' [= <-] _. assumption.
  - split; [intros Hp; split; [assumption | discriminate] | now intros [Hp _]].
Qed.

Lemma filterByInStock_elem (p : product) :
  p ∈ filterByInStock q l
  <-> p ∈ l /\ forall v, q !! "inStock" = Some v -> inStock p = String.eqb v "true".
Proof.
  unfold filterByInStock. destruct (q !! "inStock") as [v|].
  - rewrite filter_elem_of, Bool.eqb_true_iff. split; intros [Hp Hv]; split; auto.
    now intros v' [= <-].
  - split; [intros Hp; split; [assumption | discriminate] | now intros [Hp _]].
Qed.

Lemma filterByCategory_sublist : filterByCategory q l `sublist_of` l.
Proof.
  unfold filterByCategory. destruct (q !! "category") as [c|]; [|reflexivity].
  destruct (String.eqb c EmptyString); [reflexivity | apply filter_sublist].
Qed.

Lemma filterByInStock_sublist : filterByInStock q l `sublist_of` l.
Proof.
  unfold filterByInStock. destruct (q !! "inStock") as [v|];
    [apply filter_sublist | reflexivity].
Qed.

Lemma filterByInStock_filtered :
  filterByInStock q (filterByCategory q l) `sublist_of` filterByInStock q l.
Proof.
  unfold filterByInStock. destruct (q !! "inStock") as [v|];
    [|apply filterByCategory_sublist].
  unfold filterByCategory. destruct (q !! "category") as [c|]; [|reflexivity].
  destruct (String.eqb c EmptyString); [reflexivity | apply filter_filter_sublist].
Qed.

Lemma filteredProducts_without_inStock :
  filteredProducts l (delete "inStock" q) = filterByCategory q l.
Proof.
  unfold filteredProducts, filterByInStock, filterByCategory.
  now rewrite lookup_delete_eq, lookup_delete_ne by discriminate.
Qed.

Lemma filteredProducts_without_category :
  filteredProducts l (delete "category" q) = filterByInStock q l.
Proof.
  unfold filteredProducts, filterByInStock, filterByCategory.
  now rewrite lookup_delete_eq, lookup_delete_ne by discriminate.
Qed.

End Filters.

(** An absent or empty [category] parameter filters nothing, and so does
    an absent [inStock] parameter. *)
Lemma unfiltered {builtins : JS.Builtins}
  (products : list product) (q : gmap string string) :
  (q !! "category" = None \/ q !! "category" = Some EmptyString) ->
  q !! "inStock" = None ->
  filteredProducts products q = products.
Proof.
  unfold filteredProducts, filterByInStock, filterByCategory.
  now intros [->| ->] ->.
Qed.

(** ** C4: the filters *)

(** C4, as worded, fails: with an empty [category] parameter no category
    filter runs; all five products are returned, and the category of the
    first one is not the empty string up to case. *)
Lemma empty_category_is_not_matched :
  exists pagination,
    fst (handle "u" seed (fetch GetProducts {["category" := EmptyString]}))
    = {| status := 200; json := ProductPage seed pagination |}
    /\ (category <$> seed !! 0%nat) = Some "electronics"
    /\ JS.equal_up_to_case "electronics" EmptyString = false.
Proof. eexists. repeat split; vm_compute; reflexivity. Qed.

(** C4, amended. GET /api/products first applies the category filter,
    when the [category] parameter is a non-empty string: it keeps the
    products whose category, in lower case, is the parameter in lower
    case.  Then it applies the inStock filter, when there is an
    [inStock] parameter: it keeps the products whose inStock flag is the
    boolean the parameter stands for (true for the string [true], false
    for any other string).  So, whichever of the two parameters are
    there, the filtered list holds exactly the products of the array
    that meet the criteria there are, in the order of the array; every
    product of the returned page is one of them; and the list filtered
    by both parameters is a sublist of the list filtered by either one
    alone.  An absent or empty [category] filters nothing, and so does
    an absent [inStock].  A product whose category is the parameter up
    to the case of the letters A to Z meets the category criterion, and
    on ASCII text these are the only ones. *)
Theorem filters_intersect {builtins : JS.Builtins}
  (uuid : string) (products : list product) (req : request) :
  target req = GetProducts ->
  let filtered := filteredProducts products (query req) in
  (forall c, query req !! "category" = Some c -> c <> EmptyString ->
     forall p, p ∈ filtered -> JS.toLowerCase (category p) = JS.toLowerCase c)
  /\ (forall v, query req !! "inStock" = Some v ->
      forall p, p ∈ filtered -> inStock p = String.eqb v "true")
  /\ (forall p,
        p ∈ filtered
        <-> p ∈ products
            /\ (forall c, query req !! "category" = Some c -> c <> EmptyString ->
                          JS.toLowerCase (category p) = JS.toLowerCase c)
            /\ (forall v, query req !! "inStock" = Some v ->
                          inStock p = String.eqb v "true"))
  /\ (forall c v,
        query req !! "category" = Some c -> c <> EmptyString ->
        query req !! "inStock" = Some v ->
        filtered
        = List.filter (fun p => Bool.eqb (inStock p) (String.eqb v "true"))
            (List.filter
               (fun p => String.eqb (JS.toLowerCase (category p)) (JS.toLowerCase c))
               products))
  /\ filtered `sublist_of` products
  /\ (exists paginated pagination,
        handle uuid products req
        = ({| status := 200; json := ProductPage paginated pagination |}, products)
        /\ paginated `sublist_of` filtered
        /\ forall p, p ∈ paginated -> p ∈ filtered)
  /\ filtered `sublist_of` filteredProducts products (delete "inStock" (query req))
  /\ filtered `sublist_of` filteredProducts products (delete "category" (query req))
  /\ filteredProducts products (delete "category" (delete "inStock" (query req)))
     = products
  /\ (JS.case_insensitive ->
      forall c p,
        query req !! "category" = Some c -> p ∈ products ->
        JS.equal_up_to_case (category p) c = true ->
        (forall v, query req !! "inStock" = Some v -> inStock p = String.eqb v "true") ->
        p ∈ filtered)
  /\ (JS.ascii_lowering ->
      forall c p,
        query req !! "category" = Some c -> c <> EmptyString ->
        JS.ascii_text c = true -> JS.ascii_text (category p) = true ->
        p ∈ filtered -> JS.equal_up_to_case (category p) c = true).
Proof.
  intros Ht filtered.
  assert (Hmem : forall p,
             p ∈ filtered
             <-> p ∈ products
                 /\ (forall c, query req !! "category" = Some c -> c <> EmptyString ->
                               JS.toLowerCase (category p) = JS.toLowerCase c)
                 /\ (forall v, query req !! "inStock" = Some v ->
                               inStock p = String.eqb v "true")).
  { intros p. subst filtered. unfold filteredProducts.
    rewrite filterByInStock_elem, filterByCategory_elem. tauto. }
  split; [intros c Hc Hne p Hp; now apply Hmem in Hp as (_ & Hp & _); apply Hp|].
  split; [intros v Hv p Hp; now apply Hmem in Hp as (_ & _ & Hp); apply Hp|].
  split; [exact Hmem|].
  split; [|split; [|split; [|split; [|split; [|split; [|split]]]]]].
  - intros c v Hc Hne%String.eqb_neq Hv. subst filtered.
    unfold filteredProducts, filterByInStock, filterByCategory.
    now rewrite Hc, Hv, Hne.
  - subst filtered. unfold filteredProducts.
    etransitivity; [apply filterByInStock_sublist | apply filterByCategory_sublist].
  - unfold handle, handler. rewrite Ht. simpl. unfold getProducts.
    fold filtered. eexists _, _. split; [reflexivity|].
    split; [apply slice_sublist|].
    intros p Hp. eapply elem_of_sublist; [exact Hp | apply slice_sublist].
  - rewrite filteredProducts_without_inStock. apply filterByInStock_sublist.
  - rewrite filteredProducts_without_category. apply filterByInStock_filtered.
  - unfold filteredProducts, filterByInStock, filterByCategory.
    now rewrite lookup_delete_ne, !lookup_delete_eq by discriminate.
  - intros Hcase c p Hc Hp Heq Hstock. apply Hmem. split; [assumption|].
    split; [|assumption]. intros c' Hc' _.
    assert (c' = c) as -> by congruence. now apply Hcase.
  - intros Hlower c p Hc Hne Hac Hap Hp.
    apply equal_up_to_case_lower.
    rewrite <- (Hlower c Hac), <- (Hlower (category p) Hap).
    apply Hmem in Hp as (_ & Hp & _). now apply Hp.
Qed.

Lemma filters_intersect_witness :
  filteredProducts seed
    (query (fetch GetProducts {["category" := "ELECTRONICS"; "inStock" := "true"]}))
  = List.filter (fun p => Bool.eqb (inStock p) (String.eqb "true" "true"))
      (List.filter
         (fun p => String.eqb (JS.toLowerCase (category p)) (JS.toLowerCase "ELECTRONICS"))
         seed).
Proof.
  destruct (filters_intersect "u" seed
              (fetch GetProducts {["category" := "ELECTRONICS"; "inStock" := "true"]})
              eq_refl) as (_ & _ & _ & H & _).
  apply (H "ELECTRONICS" "true").
  - vm_compute. reflexivity.
  - discriminate.
  - vm_compute. reflexivity.
Defined.

Example filters_on_the_seed :
  map name (filteredProducts seed {["category" := "ELECTRONICS"; "inStock" := "true"]})
  = ["Laptop"; "Smartphone"; "Wireless Headphones"]
  /\ map name (filteredProducts seed {["category" := "Kitchen"]}) = ["Coffee Maker"]
  /\ map name (filteredProducts seed {["inStock" := "false"]}) = ["Coffee Maker"].
Proof. repeat split; vm_compute; reflexivity. Qed.

(** ** Facts about [includes] *)

Section Includes.

Lemma prefix_iff (t s : string) :
  String.prefix t s = true <-> exists after, s = t +:+ after.
Proof.
  revert s. induction t as [|c t IH]; intros s.
  - destruct s; simpl; (split; [intros _; eexists; apply eq_sym, append_nil | auto]).
  - destruct s as [|d s]; simpl.
    + split; [discriminate | intros [after H]; rewrite append_cons in H; discriminate].
    + destruct (ascii_dec c d) as [->|Hne].
      * rewrite IH. split; intros [after H]; exists after.
        -- now rewrite append_cons, H.
        -- rewrite append_cons in H. now injection H.
      * split; [discriminate|]. intros [after H]. rewrite append_cons in H.
        injection H as H _. congruence.
Qed.

Lemma includes_iff (s t : string) :
  JS.includes s t = true <-> exists before after, s = before +:+ t +:+ after.
Proof.
  induction s as [|c s IH];
    [change (JS.includes EmptyString t) with (String.prefix t EmptyString || false)
    |change (JS.includes (String c s) t)
       with (String.prefix t (String c s) || JS.includes s t)];
    rewrite orb_true_iff, prefix_iff.
  - split.
    + intros [[after H]|H]; [|discriminate]. exists EmptyString, after. exact H.
    + intros ([|d before] & after & H); [left; eauto|].
      rewrite append_cons in H. discriminate.
  - rewrite IH. split.
    + intros [[after H]|(before & after & H)].
      * exists EmptyString, after. exact H.
      * exists (String c before), after. now rewrite append_cons, H.
    + intros ([|d before] & after & H); [left; eauto|].
      rewrite append_cons in H. injection H as _ H. right. eauto.
Qed.

(** On ASCII text, [a.toLowerCase().includes(q.toLowerCase())] finds [q]
    in [a] up to case. *)
Lemma includes_up_to_case (s q : string) :
  JS.includes (JS.lower_ascii s) (JS.lower_ascii q) = true
  <-> Spec.contains_up_to_case s q.
Proof.
  rewrite includes_iff. unfold Spec.contains_up_to_case. split.
  - intros (x & y & (before & rest & -> & <- & Hrest)%lower_ascii_split).
    apply lower_ascii_split in Hrest as (found & after & -> & Hfound & <-).
    exists before, found, after. split; [reflexivity|].
    now apply equal_up_to_case_lower.
  - intros (before & found & after & -> & Hfound%equal_up_to_case_lower).
    exists (JS.lower_ascii before), (JS.lower_ascii after).
    now rewrite !lower_ascii_append, Hfound.
Qed.

End Includes.

(** ** C6: search *)

(** C6, as worded, fails: here the parameter [q] is in the query, with the
    empty string as its value, and the answer is the 400 validation
    error. *)
Lemma empty_query_is_rejected :
  query (fetch SearchProducts {["q" := EmptyString]}) !! "q" = Some EmptyString
  /\ query (fetch SearchProducts {["q" := EmptyString]}) !! "q" <> None
  /\ status (fst (handle "u" seed (fetch SearchProducts {["q" := EmptyString]}))) = 400.
Proof. repeat split; try (vm_compute; reflexivity). vm_compute. discriminate. Qed.

(** C6, amended. GET /api/products/search answers with the 400
    validation error exactly when the parameter [q] is absent or empty.
    Otherwise it answers 200 with the products of the array, in their
    order, whose name or description, in lower case, contains [q] in
    lower case as a substring, and with their number.  On ASCII text
    these are the products whose name or description contains [q] as a
    substring up to case. *)
Theorem search_matches {builtins : JS.Builtins}
  (uuid : string) (products : list product) (req : request) :
  target req = SearchProducts ->
  (status (fst (handle uuid products req)) = 400
   <-> query req !! "q" = None \/ query req !! "q" = Some EmptyString)
  /\ (query req !! "q" = None \/ query req !! "q" = Some EmptyString ->
      handle uuid products req
      = ({| status := 400;
            json := Failure "Validation Error"
                      ("Search query parameter " +:+ dquote +:+ "q" +:+ dquote
                       +:+ " is required") 400 |},
         products))
  /\ (forall q, query req !! "q" = Some q -> q <> EmptyString ->
      exists results,
        handle uuid products req
        = ({| status := 200; json := SearchResults q results (length results) |},
           products)
        /\ results = List.filter (matches q) products
        /\ results `sublist_of` products
        /\ (forall p,
              p ∈ results
              <-> p ∈ products
                  /\ (Spec.substring (JS.toLowerCase (name p)) (JS.toLowerCase q)
                      \/ Spec.substring (JS.toLowerCase (description p))
                           (JS.toLowerCase q)))
        /\ (JS.ascii_lowering -> JS.ascii_text q = true ->
            forall p,
              JS.ascii_text (name p) = true -> JS.ascii_text (description p) = true ->
              (p ∈ results
               <-> p ∈ products
                   /\ (Spec.contains_up_to_case (name p) q
                       \/ Spec.contains_up_to_case (description p) q)))).
Proof.
  intros Ht.
  assert (Hh : handle uuid products req
               = (respond (searchProducts products req), products)).
  { unfold handle, handler. now rewrite Ht. }
  rewrite Hh. unfold searchProducts.
  destruct (query req !! "q") as [q|] eqn:Hq.
  - destruct (String.eqb_spec q EmptyString) as [->|Hne]; simpl.
    + split; [split; auto|]. split; [reflexivity|]. intros q [= <-] H. now destruct H.
    + split; [|split].
      * split; [discriminate|]. intros [H|[= H]]; [discriminate | contradiction].
      * intros [H|[= H]]; [discriminate | contradiction].
      * intros q' [= <-] _. eexists. split; [reflexivity|].
        split; [reflexivity|]. split; [apply filter_sublist|].
        assert (Hmem : forall p,
                   p ∈ List.filter (matches q) products
                   <-> p ∈ products
                       /\ (Spec.substring (JS.toLowerCase (name p)) (JS.toLowerCase q)
                           \/ Spec.substring (JS.toLowerCase (description p))
                                (JS.toLowerCase q))).
        { intros p. rewrite filter_elem_of. unfold matches, Spec.substring.
          now rewrite orb_true_iff, !includes_iff. }
        split; [exact Hmem|].
        intros Hlower Hq' p Hn Hd. rewrite Hmem. unfold Spec.substring.
        rewrite <- !includes_iff, (Hlower q Hq'), (Hlower _ Hn), (Hlower _ Hd).
        now rewrite !includes_up_to_case.
  - simpl. split; [split; auto|]. split; [reflexivity|]. discriminate.
Qed.

Lemma search_matches_witness :
  exists results,
    handle "u" seed (fetch SearchProducts {["q" := "LAPTOP"]})
    = ({| status := 200; json := SearchResults "LAPTOP" results (length results) |},
       seed)
    /\ results = List.filter (matches "LAPTOP") seed.
Proof.
  destruct (search_matches "u" seed (fetch SearchProducts {["q" := "LAPTOP"]}) eq_refl)
    as (_ & _ & H).
  destruct (H "LAPTOP") as (results & Hh & Hr & _).
  - vm_compute. reflexivity.
  - discriminate.
  - exists results. split; assumption.
Defined.

Example search_on_the_seed :
  map name (List.filter (matches "LAPTOP") seed) = ["Laptop"]
  /\ map name (List.filter (matches "wireless") seed) = ["Wireless Headphones"]
  /\ map name (List.filter (matches "with") seed)
     = ["Laptop"; "Smartphone"; "Coffee Maker"; "Desk Chair"].
Proof. repeat split; vm_compute; reflexivity. Qed.

(** ** Facts about the statistics *)

Section Statistics.

Lemma inherited_proto (c : string) :
  JS.inherited c = None -> String.eqb c "__proto__" = false.
Proof. unfold JS.inherited. now destruct (String.eqb c "__proto__"). Qed.

(** The entry of a name that is not inherited, after counting the
    products of [l] into [m]. *)
Lemma categories_count (l : list product) (m : gmap string JS.tally) (c : string) :
  JS.inherited c = None ->
  (m !! c = None \/ exists n, m !! c = Some (JS.Count n)) ->
  foldl countCategory m l !! c
  = match Spec.in_category c l with
    | O => m !! c
    | S k => Some (JS.Count (match m !! c with
                             | Some (JS.Count n) => n
                             | _ => 0
                             end + S k))
    end.
Proof.
  intros Hc. unfold Spec.in_category.
  revert m. induction l as [|p l IH]; intros m Hm; [reflexivity|].
  simpl foldl. simpl List.filter.
  destruct (String.eqb_spec (category p) c) as [Hp|Hne].
  - assert (Hstep : countCategory m p !! c
                    = Some (JS.Count (match m !! c with
                                      | Some (JS.Count n) => n
                                      | _ => 0
                                      end + 1))).
    { unfold countCategory. rewrite Hp, (inherited_proto c Hc), lookup_insert_eq.
      destruct Hm as [->|[n ->]]; simpl; [now rewrite Hc | reflexivity]. }
    rewrite IH by (rewrite Hstep; eauto). rewrite Hstep. simpl length.
    destruct (length (List.filter _ l)); do 2 f_equal; lia.
  - assert (Hstep : countCategory m p !! c = m !! c).
    { unfold countCategory. destruct (String.eqb (category p) "__proto__");
        [reflexivity | now rewrite lookup_insert_ne]. }
    rewrite IH by now rewrite Hstep. rewrite Hstep. reflexivity.
Qed.

Lemma filter_partition {A : Type} (f : A -> bool) (l : list A) :
  (length (List.filter f l) + length (List.filter (fun x => negb (f x)) l))%nat
  = length l.
Proof.
  induction l as [|a l IH]; [reflexivity|]. simpl.
  destruct (f a); simpl; lia.
Qed.

Lemma fold_left_total (xs : list Q) (a : Q) :
  (fold_left Qplus xs a == a + Spec.total xs)%Q.
Proof.
  revert a. induction xs as [|x xs IH]; intros a; simpl.
  - now rewrite Qplus_0_r.
  - rewrite IH. symmetry. apply Qplus_assoc.
Qed.

Lemma Qmin_cases (x y : Q) : Qmin x y = x \/ Qmin x y = y.
Proof. unfold Qmin, GenericMinMax.gmin. destruct (x ?= y)%Q; auto. Qed.

Lemma Qmax_cases (x y : Q) : Qmax x y = x \/ Qmax x y = y.
Proof. unfold Qmax, GenericMinMax.gmax. destruct (x ?= y)%Q; auto. Qed.

Lemma fold_min (r : list Q) (x : Q) :
  In (fold_left Qmin r x) (x :: r)
  /\ forall y, In y (x :: r) -> (fold_left Qmin r x <= y)%Q.
Proof.
  revert x. induction r as [|z r IH]; intros x; simpl.
  - split; [auto|]. intros y [<-|[]]. apply Qle_refl.
  - destruct (IH (Qmin x z)) as [Hin Hle]. split.
    + destruct Hin as [Hin|Hin]; [|auto].
      destruct (Qmin_cases x z) as [H|H]; [left | right; left];
        (transitivity (Qmin x z); [symmetry; exact H | exact Hin]).
    + intros y [<-|[<-|Hy]].
      * eapply Qle_trans; [apply Hle; now left | apply Q.le_min_l].
      * eapply Qle_trans; [apply Hle; now left | apply Q.le_min_r].
      * apply Hle. now right.
Qed.

Lemma fold_max (r : list Q) (x : Q) :
  In (fold_left Qmax r x) (x :: r)
  /\ forall y, In y (x :: r) -> (y <= fold_left Qmax r x)%Q.
Proof.
  revert x. induction r as [|z r IH]; intros x; simpl.
  - split; [auto|]. intros y [<-|[]]. apply Qle_refl.
  - destruct (IH (Qmax x z)) as [Hin Hle]. split.
    + destruct Hin as [Hin|Hin]; [|auto].
      destruct (Qmax_cases x z) as [H|H]; [left | right; left];
        (transitivity (Qmax x z); [symmetry; exact H | exact Hin]).
    + intros y [<-|[<-|Hy]].
      * eapply Qle_trans; [apply Q.le_max_l | apply Hle; now left].
      * eapply Qle_trans; [apply Q.le_max_r | apply Hle; now left].
      * apply Hle. now right.
Qed.

End Statistics.

(** ** C8: statistics *)

(** What GET /api/products/stats answers, for every array: the length of
    the array; the numbers of products with inStock true and with inStock
    false (which add up to the length); for each category whose name is
    not an inherited property of objects, the number of products in it
    (and no entry when there is none); the sum of the prices divided by
    their number as the average, and the least and the greatest price, or
    0 for all three when the array is empty.  On the five seed products
    these are 5, 4, 1, an average of 510 and the range 50 to 1200. *)
Lemma statistics {builtins : JS.Builtins}
  (uuid : string) (products : list product) (req : request) :
  target req = GetStats ->
  exists s,
    handle uuid products req = ({| status := 200; json := Statistics s |}, products)
    /\ Stats.totalProducts s = length products
    /\ Stats.inStock s = length (List.filter (fun p => inStock p) products)
    /\ Stats.outOfStock s = length (List.filter (fun p => negb (inStock p)) products)
    /\ (Stats.inStock s + Stats.outOfStock s)%nat = Stats.totalProducts s
    /\ (forall c, JS.inherited c = None ->
                  Stats.categories s !! c
                  = if (Spec.in_category c products =? 0)%nat then None
                    else Some (JS.Count (Spec.in_category c products)))
    /\ (products = [] ->
        Stats.averagePrice s = 0%Q /\ Stats.priceRange_min s = 0%Q
        /\ Stats.priceRange_max s = 0%Q)
    /\ (products <> [] ->
        (Stats.averagePrice s
         == Spec.total (map price products) / inject_Z (Z.of_nat (length products)))%Q
        /\ In (Stats.priceRange_min s) (map price products)
        /\ (forall p, p ∈ products -> (Stats.priceRange_min s <= price p)%Q)
        /\ In (Stats.priceRange_max s) (map price products)
        /\ (forall p, p ∈ products -> (price p <= Stats.priceRange_max s)%Q))
    /\ (products = seed ->
        Stats.totalProducts s = 5%nat /\ Stats.inStock s = 4%nat
        /\ Stats.outOfStock s = 1%nat
        /\ (Stats.averagePrice s == 510)%Q
        /\ Stats.priceRange_min s = 50%Q /\ Stats.priceRange_max s = 1200%Q
        /\ Stats.categories s
           = {["electronics" := JS.Count 3; "kitchen" := JS.Count 1;
               "furniture" := JS.Count 1]}).
Proof.
  intros Ht. unfold handle, handler. rewrite Ht. simpl. unfold getStats.
  eexists. split; [reflexivity|]. simpl.
  split; [reflexivity|]. split; [reflexivity|]. split; [reflexivity|].
  split; [apply filter_partition|]. split; [|split; [|split]].
  - intros c Hc. rewrite categories_count by (rewrite ?lookup_empty; auto).
    rewrite lookup_empty. simpl.
    destruct (Spec.in_category c products); reflexivity.
  - intros ->. auto.
  - intros Hne. destruct products as [|p0 l]; [contradiction|].
    change (0 <? length (p0 :: l))%nat with true. cbv iota.
    split; [|split; [|split; [|split]]].
    + rewrite fold_left_total, Qplus_0_l, length_map. reflexivity.
    + apply (fold_min (map price l) (price p0)).
    + intros p Hp. apply (fold_min (map price l) (price p0)).
      apply (in_map price (p0 :: l)), list_elem_of_In, Hp.
    + apply (fold_max (map price l) (price p0)).
    + intros p Hp. apply (fold_max (map price l) (price p0)).
      apply (in_map price (p0 :: l)), list_elem_of_In, Hp.
  - intros ->. repeat split; vm_compute; reflexivity.
Qed.

(** C8. The per-category counts are wrong for a category named like an
    inherited property: after a product of category [constructor] has
    been created (the payload passes validation), exactly one product of
    the array has that category, but the entry of [constructor] in the
    statistics is not the number 1: it is the text that adding 1 to the
    inherited function gives.  Everything else in the answer is as the
    claim says. *)
Theorem inherited_category_is_not_counted {builtins : JS.Builtins} :
  let products :=
    snd (handle "7c9e6679-7425-40de-944b-e07fc1f90ae7" seed
           (submit CreateProduct key_header builder_kit)) in
  validateProduct (submit CreateProduct key_header builder_kit) = None
  /\ length products = 6%nat
  /\ Spec.in_category "constructor" products = 1%nat
  /\ exists s,
      handle "u" products (fetch GetStats ∅)
      = ({| status := 200; json := Statistics s |}, products)
      /\ Stats.categories s !! "constructor"
         = Some (JS.Text "function Object() { [native code] }1")
      /\ Stats.categories s !! "constructor" <> Some (JS.Count 1)
      /\ Stats.totalProducts s = 6%nat
      /\ Stats.categories s !! "electronics" = Some (JS.Count 3).
Proof.
  cbv zeta. split; [vm_compute; reflexivity|].
  split; [vm_compute; reflexivity|]. split; [vm_compute; reflexivity|].
  eexists. split; [vm_compute; reflexivity|].
  repeat split; try (vm_compute; reflexivity). vm_compute. discriminate.
Qed.

(** ** The first element that satisfies a test *)

Local Open Scope list_scope.

Section First.

Context {A : Type} (f : A -> bool).

Lemma find_first_match (before after : list A) (x : A) :
  Forall (fun y => f y = false) before -> f x = true ->
  List.find f (before ++ x :: after) = Some x.
Proof.
  intros Hb Hx. induction Hb as [|y before Hy _ IH]; simpl.
  - now rewrite Hx.
  - now rewrite Hy.
Qed.

Lemma findIndex_first_match (before after : list A) (x : A) :
  Forall (fun y => f y = false) before -> f x = true ->
  JS.findIndex f (before ++ x :: after) = Some (length before).
Proof.
  intros Hb Hx. induction Hb as [|y before Hy _ IH]; simpl.
  - now rewrite Hx.
  - now rewrite Hy, IH.
Qed.

Lemma findIndex_decompose (l : list A) (idx : nat) :
  JS.findIndex f l = Some idx ->
  exists before x after,
    l = before ++ x :: after /\ length before = idx /\ f x = true
    /\ Forall (fun y => f y = false) before.
Proof.
  revert idx. induction l as [|a l IH]; simpl; intros idx; [discriminate|].
  destruct (f a) eqn:Hfa.
  - intros [= <-]. exists [], a, l. auto.
  - destruct (JS.findIndex f l) as [k|]; simpl; [|discriminate].
    intros [= <-]. destruct (IH k eq_refl) as (before & x & after & -> & <- & Hx & Hb).
    exists (a :: before), x, after. auto.
Qed.

Lemma first_match_exists (l : list A) (x : A) :
  x ∈ l -> f x = true ->
  exists before y after,
    l = before ++ y :: after /\ f y = true /\ Forall (fun z => f z = false) before.
Proof.
  intros Hx Hfx. destruct (JS.findIndex f l) as [idx|] eqn:Hi.
  - destruct (findIndex_decompose l idx Hi) as (before & y & after & ? & _ & ? & ?).
    eauto 6.
  - rewrite findIndex_None in Hi. rewrite (Hi x Hx) in Hfx. discriminate.
Qed.

Lemma insert_middle (before after : list A) (x y : A) :
  <[length before := y]> (before ++ x :: after) = before ++ y :: after.
Proof. induction before as [|a before IH]; simpl; [reflexivity | now rewrite IH]. Qed.

End First.

Lemma no_such_id (i : string) (l : list product) :
  Forall (fun y => has_id i y = false) l <-> i ∉ map id l.
Proof.
  rewrite Forall_forall, list_elem_of_fmap. split.
  - intros H (p & -> & Hp). specialize (H p Hp). unfold has_id in H.
    now rewrite String.eqb_refl in H.
  - intros H p Hp. apply String.eqb_neq. intros <-. apply H. eauto.
Qed.

(** ** What one request does to the array *)

Section Effect.

Context {builtins : JS.Builtins}.

Variables (uuid : string) (products : list product) (req : request).

(** Every request falls in one of four cases: the array is returned as
    it was (on every GET route, and whenever the answer is an error); or
    an accepted POST appends one record; or an accepted PUT overwrites
    the first record that has the identifier; or an accepted DELETE
    removes the first record that has the identifier. *)
Lemma handle_effect (resp : response) (products' : list product) :
  handle uuid products req = (resp, products') ->
  (products' = products
   /\ (mutating (target req) = false \/ 400 <= status resp))
  \/ (exists n d p c s,
        target req = CreateProduct /\ authMiddleware req = None
        /\ validateProduct req = None /\ Props.carries req n d p c s
        /\ resp = created (stored uuid n d p c s)
        /\ products' = (products ++ [stored uuid n d p c s])%list)
  \/ (exists i before old after n d p c s,
        target req = UpdateProduct i /\ authMiddleware req = None
        /\ validateProduct req = None /\ Props.carries req n d p c s
        /\ products = (before ++ old :: after)%list /\ id old = i
        /\ (i ∉ map id before)
        /\ resp = updated (stored i n d p c s)
        /\ products' = (before ++ stored i n d p c s :: after)%list)
  \/ (exists i before old after,
        target req = DeleteProduct i /\ authMiddleware req = None
        /\ products = (before ++ old :: after)%list /\ id old = i
        /\ (i ∉ map id before)
        /\ resp = deleted old
        /\ products' = (before ++ after)%list).
Proof.
  destruct (target req) eqn:Ht.
  1-4: unfold handle, handler; rewrite Ht; simpl; intros [= <- <-]; left; auto.
  - rewrite (handle_create uuid products req Ht).
    destruct (authMiddleware req) as [e|] eqn:Ha.
    { apply auth_fails_with in Ha as ->. intros [= <- <-]. left. simpl. split; [auto | right; lia]. }
    destruct (validateProduct req) as [e|] eqn:Hv.
    { apply validation_fails_with in Hv as [m ->]. intros [= <- <-]. left.
      simpl. split; [auto | right; lia]. }
    destruct (validateProduct_accepts req Hv)
      as (n & d & p & c & s & Hn & Hd & Hp & Hc & Hs & Bn & Bd & Bc & Hpos & Hf).
    unfold createProduct. rewrite Hf. intros [= <- <-].
    right; left. exists n, d, p, c, s. unfold Props.carries. auto 15.
  - rewrite (handle_update uuid products req i Ht).
    destruct (authMiddleware req) as [e|] eqn:Ha.
    { apply auth_fails_with in Ha as ->. intros [= <- <-]. left. simpl. split; [auto | right; lia]. }
    destruct (validateProduct req) as [e|] eqn:Hv.
    { apply validation_fails_with in Hv as [m ->]. intros [= <- <-]. left.
      simpl. split; [auto | right; lia]. }
    destruct (validateProduct_accepts req Hv)
      as (n & d & p & c & s & Hn & Hd & Hp & Hc & Hs & Bn & Bd & Bc & Hpos & Hf).
    unfold updateProduct. fold (has_id i).
    destruct (JS.findIndex (has_id i) products) as [idx|] eqn:Hi.
    2:{ intros [= <- <-]. left. simpl. split; [auto | right; lia]. }
    destruct (findIndex_decompose _ _ _ Hi)
      as (before & old & after & -> & <- & Hid%String.eqb_eq & Hb%no_such_id).
    rewrite list_lookup_middle, Hf, Hid, insert_middle by reflexivity.
    intros [= <- <-]. right; right; left.
    exists i, before, old, after, n, d, p, c, s. unfold Props.carries. auto 20.
  - rewrite (handle_delete uuid products req i Ht).
    destruct (authMiddleware req) as [e|] eqn:Ha.
    { apply auth_fails_with in Ha as ->. intros [= <- <-]. left. simpl. split; [auto | right; lia]. }
    unfold deleteProduct. fold (has_id i).
    destruct (JS.findIndex (has_id i) products) as [idx|] eqn:Hi.
    2:{ intros [= <- <-]. left. simpl. split; [auto | right; lia]. }
    destruct (findIndex_decompose _ _ _ Hi)
      as (before & old & after & -> & <- & Hid%String.eqb_eq & Hb%no_such_id).
    rewrite list_lookup_middle, delete_middle by reflexivity.
    intros [= <- <-]. right; right; right.
    exists i, before, old, after. auto 10.
Qed.

End Effect.

Lemma carries_fields (req : request) n d p c s :
  Props.carries req n d p c s ->
  fields (body req) = Some (JS.trim n, JS.trim d, p, JS.trim c, s).
Proof.
  intros (Hn & Hd & Hp & Hc & Hs & _). unfold fields.
  now rewrite Hn, Hd, Hp, Hc, Hs.
Qed.

Lemma handle_get {builtins : JS.Builtins}
  (uuid : string) (products : list product) (req : request) (i : string) :
  target req = GetProduct i ->
  handle uuid products req = (respond (getProduct products i), products).
Proof. intros Ht. unfold handle, handler. now rewrite Ht. Qed.

Lemma getProduct_first (before after : list product) (p : product) (i : string) :
  id p = i -> i ∉ map id before ->
  getProduct (before ++ p :: after) i = inr {| status := 200; json := OneProduct p |}.
Proof.
  intros Hp Hb%no_such_id. unfold getProduct. fold (has_id i).
  rewrite find_first_match; [reflexivity | assumption |].
  now apply String.eqb_eq.
Qed.

Lemma getProduct_none (products : list product) (i : string) :
  i ∉ map id products -> getProduct products i = inl (not_found i).
Proof.
  intros Hi%no_such_id. unfold getProduct. fold (has_id i).
  now rewrite (proj2 (find_none (has_id i) products)).
Qed.

(** ** Reading one product *)

(** X1. GET /api/products/:id never changes the array.  It answers 404,
    with a message that names the identifier, when no product has it, and
    otherwise 200 with the first product of the array that has it. *)
Theorem fetch_by_id {builtins : JS.Builtins}
  (uuid : string) (products : list product) (req : request) (i : string) :
  target req = GetProduct i ->
  snd (handle uuid products req) = products
  /\ (i ∉ map id products ->
      fst (handle uuid products req)
      = {| status := 404;
           json := Failure "Not Found" ("Product with ID " +:+ i +:+ " not found") 404 |})
  /\ (forall before p after,
        products = before ++ p :: after -> id p = i -> i ∉ map id before ->
        fst (handle uuid products req) = {| status := 200; json := OneProduct p |})
  /\ (i ∈ map id products ->
      exists p, p ∈ products /\ id p = i
                /\ fst (handle uuid products req)
                   = {| status := 200; json := OneProduct p |}).
Proof.
  intros Ht. rewrite (handle_get uuid products req i Ht). simpl.
  split; [reflexivity|]. split; [|split].
  - intros Hi. now rewrite getProduct_none.
  - intros before p after -> Hp Hb. now rewrite (getProduct_first before after p i).
  - intros (p & -> & Hp)%list_elem_of_fmap.
    destruct (first_match_exists (has_id (id p)) products p Hp (String.eqb_refl _))
      as (before & y & after & -> & Hy%String.eqb_eq & Hb%no_such_id).
    exists y. split; [apply elem_of_app; right; left|].
    split; [assumption|]. now rewrite (getProduct_first before after y (id p)).
Qed.

Lemma fetch_by_id_witness :
  exists p, p ∈ seed /\ id p = "3"
            /\ fst (handle "u" seed (fetch (GetProduct "3") ∅))
               = {| status := 200; json := OneProduct p |}.
Proof.
  apply (fetch_by_id "u" seed (fetch (GetProduct "3") ∅) "3" eq_refl).
  apply (bool_decide_unpack _). vm_compute. exact I.
Defined.

(** ** Round trips *)

(** X2. When a POST is answered 201 and the generated identifier was not
    yet in the array, a GET on that identifier right after answers 200
    with exactly the record that the POST returned. *)
Theorem create_then_fetch {builtins : JS.Builtins}
  (uuid : string) (products : list product) (req : request)
  (resp : response) (products' : list product) (uuid' : string) (req' : request) :
  target req = CreateProduct ->
  handle uuid products req = (resp, products') ->
  status resp = 201 ->
  uuid ∉ map id products ->
  target req' = GetProduct uuid ->
  exists p,
    resp = {| status := 201; json := Message "Product created successfully" p |}
    /\ handle uuid' products' req'
       = ({| status := 200; json := OneProduct p |}, products').
Proof.
  intros Ht Hh H201 Hfresh Ht'.
  destruct (create_accepted uuid products req resp products' Ht Hh H201)
    as (n & d & p & c & s & _ & _ & _ & _ & _ & -> & ->).
  exists (stored uuid n d p c s). split; [reflexivity|].
  rewrite (handle_get uuid' _ req' uuid Ht').
  now rewrite (getProduct_first products [] (stored uuid n d p c s) uuid).
Qed.

Lemma create_then_fetch_witness :
  exists p,
    fst (handle "u" seed (submit CreateProduct key_header desk))
    = {| status := 201; json := Message "Product created successfully" p |}
    /\ handle "v" (snd (handle "u" seed (submit CreateProduct key_header desk)))
         (fetch (GetProduct "u") ∅)
       = ({| status := 200; json := OneProduct p |},
          snd (handle "u" seed (submit CreateProduct key_header desk))).
Proof.
  apply (create_then_fetch "u" seed (submit CreateProduct key_header desk)
           _ _ "v" (fetch (GetProduct "u") ∅) eq_refl (surjective_pairing _)).
  - vm_compute. reflexivity.
  - apply (bool_decide_unpack _). vm_compute. exact I.
  - reflexivity.
Defined.

(** X3. When a PUT on an identifier is answered 200, a GET on that
    identifier right after answers 200 with exactly the record that the
    PUT returned, whatever else the array holds. *)
Theorem update_then_fetch {builtins : JS.Builtins}
  (uuid : string) (products : list product) (req : request) (i : string)
  (resp : response) (products' : list product) (uuid' : string) (req' : request) :
  target req = UpdateProduct i ->
  handle uuid products req = (resp, products') ->
  status resp = 200 ->
  target req' = GetProduct i ->
  exists p,
    resp = {| status := 200; json := Message "Product updated successfully" p |}
    /\ id p = i
    /\ handle uuid' products' req'
       = ({| status := 200; json := OneProduct p |}, products').
Proof.
  intros Ht Hh H200 Ht'.
  destruct (handle_effect uuid products req resp products' Hh)
    as [[_ [Hm|Hs]]
       |[(n & d & p & c & s & Ht2 & _)
        |[(j & before & old & after & n & d & p & c & s & Ht2 & _ & _ & _ & -> & Hid
           & Hb & -> & ->)
         |(j & before & old & after & Ht2 & _)]]];
    try congruence.
  - rewrite Ht in Hm. discriminate.
  - lia.
  - assert (j = i) as -> by congruence.
    exists (stored i n d p c s). split; [reflexivity|]. split; [reflexivity|].
    rewrite (handle_get uuid' _ req' i Ht').
    now rewrite (getProduct_first before after (stored i n d p c s) i).
Qed.

Lemma update_then_fetch_witness :
  exists p,
    fst (handle "u" seed (submit (UpdateProduct "3") key_header desk))
    = {| status := 200; json := Message "Product updated successfully" p |}
    /\ id p = "3"
    /\ handle "v" (snd (handle "u" seed (submit (UpdateProduct "3") key_header desk)))
         (fetch (GetProduct "3") ∅)
       = ({| status := 200; json := OneProduct p |},
          snd (handle "u" seed (submit (UpdateProduct "3") key_header desk))).
Proof.
  apply (update_then_fetch "u" seed (submit (UpdateProduct "3") key_header desk) "3"
           _ _ "v" (fetch (GetProduct "3") ∅) eq_refl (surjective_pairing _)).
  - vm_compute. reflexivity.
  - reflexivity.
Defined.

(** ** Deleting *)

Lemma deleteProduct_first (before after : list product) (p : product) (i : string) :
  id p = i -> i ∉ map id before ->
  deleteProduct (before ++ p :: after) i = (inr (deleted p), before ++ after).
Proof.
  intros Hp Hb%no_such_id. unfold deleteProduct. fold (has_id i).
  rewrite findIndex_first_match by (assumption || now apply String.eqb_eq).
  now rewrite list_lookup_middle, delete_middle by reflexivity.
Qed.

Lemma deleteProduct_none (products : list product) (i : string) :
  i ∉ map id products -> deleteProduct products i = (inl (not_found i), products).
Proof.
  intros Hi%no_such_id. unfold deleteProduct. fold (has_id i).
  rewrite (proj2 (findIndex_None (has_id i) products)); [reflexivity|].
  intros x Hx. rewrite Forall_forall in Hi. now apply Hi.
Qed.

(** X4. With the right key, DELETE /api/products/:id answers 404 and
    keeps the array when no product has the identifier; otherwise it
    answers 200 with the first product that has it and removes exactly
    that one, the other products staying in their order. *)
Theorem delete_removes_first {builtins : JS.Builtins}
  (uuid : string) (products : list product) (req : request) (i : string) :
  target req = DeleteProduct i ->
  headers req !! "x-api-key" = Some secret ->
  (i ∉ map id products ->
   handle uuid products req
   = ({| status := 404;
         json := Failure "Not Found" ("Product with ID " +:+ i +:+ " not found") 404 |},
      products))
  /\ (forall before p after,
        products = before ++ p :: after -> id p = i -> i ∉ map id before ->
        handle uuid products req
        = ({| status := 200; json := Message "Product deleted successfully" p |},
           before ++ after))
  /\ (i ∈ map id products ->
      status (fst (handle uuid products req)) = 200
      /\ S (length (snd (handle uuid products req))) = length products
      /\ snd (handle uuid products req) `sublist_of` products).
Proof.
  intros Ht Hkey%auth_passes_iff.
  rewrite (handle_delete uuid products req i Ht), Hkey.
  split; [|split].
  - intros Hi. now rewrite deleteProduct_none.
  - intros before p after -> Hp Hb. now rewrite (deleteProduct_first before after p i).
  - intros (p & -> & Hp)%list_elem_of_fmap.
    destruct (first_match_exists (has_id (id p)) products p Hp (String.eqb_refl _))
      as (before & y & after & -> & Hy%String.eqb_eq & Hb%no_such_id).
    rewrite (deleteProduct_first before after y (id p) Hy Hb). simpl.
    split; [reflexivity|]. split.
    + rewrite !length_app. simpl. lia.
    + apply sublist_app; [reflexivity|]. now apply sublist_cons.
Qed.

Lemma delete_removes_first_witness :
  status (fst (handle "u" seed (submit (DeleteProduct "2") key_header ∅))) = 200
  /\ S (length (snd (handle "u" seed (submit (DeleteProduct "2") key_header ∅))))
     = length seed
  /\ snd (handle "u" seed (submit (DeleteProduct "2") key_header ∅)) `sublist_of` seed.
Proof.
  apply (delete_removes_first "u" seed (submit (DeleteProduct "2") key_header ∅) "2"
           eq_refl).
  - vm_compute. reflexivity.
  - apply (bool_decide_unpack _). vm_compute. exact I.
Defined.

(** X5. In an array whose identifiers are pairwise distinct, once a
    DELETE on an identifier has been answered 200 no product has that
    identifier any more: a GET on it answers 404, and so does the same
    DELETE sent again. *)
Theorem delete_then_gone {builtins : JS.Builtins}
  (uuid : string) (products : list product) (req : request) (i : string)
  (resp : response) (products' : list product) :
  NoDup (map id products) ->
  target req = DeleteProduct i ->
  handle uuid products req = (resp, products') ->
  status resp = 200 ->
  (i ∉ map id products')
  /\ (forall uuid' req',
        target req' = GetProduct i ->
        handle uuid' products' req' = (errorHandler (not_found i), products'))
  /\ (forall uuid',
        handle uuid' products' req = (errorHandler (not_found i), products')).
Proof.
  intros Hnd Ht Hh H200.
  destruct (handle_effect uuid products req resp products' Hh)
    as [[_ [Hm|Hs]]
       |[(n & d & p & c & s & Ht2 & _)
        |[(j & before & old & after & n & d & p & c & s & Ht2 & _)
         |(j & before & old & after & Ht2 & Ha & -> & Hid & Hb & -> & ->)]]];
    try congruence.
  - rewrite Ht in Hm. discriminate.
  - lia.
  - assert (j = i) as -> by congruence.
    assert (Hgone : i ∉ map id (before ++ after)).
    { rewrite fmap_app, fmap_cons, Hid in Hnd.
      apply NoDup_app in Hnd as (_ & _ & Hafter). apply NoDup_cons in Hafter as [Hi _].
      rewrite fmap_app, elem_of_app. tauto. }
    split; [exact Hgone|]. split.
    + intros uuid' req' Ht'. rewrite (handle_get uuid' _ req' i Ht').
      now rewrite getProduct_none.
    + intros uuid'. rewrite (handle_delete uuid' _ req i Ht), Ha.
      now rewrite deleteProduct_none.
Qed.

Lemma delete_then_gone_witness :
  "2" ∉ map id (snd (handle "u" seed (submit (DeleteProduct "2") key_header ∅))).
Proof.
  apply (delete_then_gone "u" seed (submit (DeleteProduct "2") key_header ∅) "2"
           _ _ seed_unique eq_refl (surjective_pairing _)).
  vm_compute. reflexivity.
Defined.

(** ** Requests that fail *)

(** X6. A request that is answered with a status of 400 or more leaves
    the array exactly as it was, and so does every request on a GET
    route; the array only changes with a 200 or 201 answer to POST, PUT
    or DELETE. *)
Theorem failures_change_nothing {builtins : JS.Builtins}
  (uuid : string) (products : list product) (req : request) :
  (400 <= status (fst (handle uuid products req)) ->
   snd (handle uuid products req) = products)
  /\ (mutating (target req) = false -> snd (handle uuid products req) = products)
  /\ (snd (handle uuid products req) <> products ->
      mutating (target req) = true
      /\ (status (fst (handle uuid products req)) = 200
          \/ status (fst (handle uuid products req)) = 201)).
Proof.
  destruct (handle uuid products req) as [resp products'] eqn:Hh. simpl.
  destruct (handle_effect uuid products req resp products' Hh)
    as [[-> _]
       |[(n & d & p & c & s & Ht & _ & _ & _ & -> & ->)
        |[(j & before & old & after & n & d & p & c & s & Ht & _ & _ & _ & _ & _
           & _ & -> & ->)
         |(j & before & old & after & Ht & _ & _ & _ & _ & -> & ->)]]];
    rewrite ?Ht; unfold created, updated, deleted; simpl;
    (split; [|split]); intros Hx;
    first [reflexivity | lia | discriminate | now destruct Hx
          | split; [reflexivity | auto]].
Qed.

Lemma failures_change_nothing_witness :
  snd (handle "u" seed (submit (UpdateProduct "3") key_header blank_name)) = seed.
Proof.
  apply (proj1 (failures_change_nothing "u" seed
                  (submit (UpdateProduct "3") key_header blank_name))).
  vm_compute. discriminate.
Defined.

(** X7. PUT is idempotent: when a PUT has been answered 200, sending the
    same request again gives the same answer and leaves the array as the
    first one left it. *)
Theorem put_is_idempotent {builtins : JS.Builtins}
  (uuid : string) (products : list product) (req : request) (i : string)
  (resp : response) (products' : list product) (uuid' : string) :
  target req = UpdateProduct i ->
  handle uuid products req = (resp, products') ->
  status resp = 200 ->
  handle uuid' products' req = (resp, products').
Proof.
  intros Ht Hh H200.
  destruct (handle_effect uuid products req resp products' Hh)
    as [[_ [Hm|Hs]]
       |[(n & d & p & c & s & Ht2 & _)
        |[(j & before & old & after & n & d & p & c & s & Ht2 & Ha & Hv & Hc & -> & Hid
           & Hb & -> & ->)
         |(j & before & old & after & Ht2 & _)]]];
    try congruence.
  - rewrite Ht in Hm. discriminate.
  - lia.
  - assert (j = i) as -> by congruence.
    rewrite (handle_update uuid' _ req i Ht), Ha, Hv.
    unfold updateProduct. fold (has_id i).
    rewrite findIndex_first_match
      by (now apply no_such_id || apply String.eqb_refl).
    rewrite list_lookup_middle, (carries_fields req n d p c s Hc) by reflexivity.
    now rewrite insert_middle.
Qed.

Lemma put_is_idempotent_witness :
  handle "v" (snd (handle "u" seed (submit (UpdateProduct "3") key_header desk)))
    (submit (UpdateProduct "3") key_header desk)
  = handle "u" seed (submit (UpdateProduct "3") key_header desk).
Proof.
  rewrite (surjective_pairing
             (handle "u" seed (submit (UpdateProduct "3") key_header desk))) at 2.
  apply (put_is_idempotent "u" seed (submit (UpdateProduct "3") key_header desk) "3"
           _ _ "v" eq_refl (surjective_pairing _)).
  vm_compute. reflexivity.
Defined.

(** ** The shape of what is stored *)

Lemma clean_trim (s : string) :
  Spec.blank s = false -> Props.clean (JS.trim s) = true.
Proof.
  intros Hs. destruct (trim_trimmed s) as (l & r & _ & _ & _ & Hstart & Hend).
  unfold Props.clean. rewrite Hstart, Hend.
  destruct (Spec.blank (JS.trim s)) eqn:Hb; [|reflexivity].
  destruct (string_dec (JS.trim s) EmptyString) as [Ht|Ht].
  - apply blank_trim in Ht. congruence.
  - rewrite (blank_starts _ Hb Ht) in Hstart. discriminate.
Qed.

Lemma stored_well_formed (req : request) i n d p c s :
  Props.carries req n d p c s -> Props.well_formed (stored i n d p c s) = true.
Proof.
  intros (_ & _ & _ & _ & _ & Hn & Hd & Hc & Hp).
  unfold Props.well_formed, stored. simpl.
  rewrite !clean_trim by assumption. simpl. now apply Qle_bool_iff.
Qed.

Lemma handle_well_formed {builtins : JS.Builtins}
  (uuid : string) (products : list product) (req : request) :
  Forall (fun p => Props.well_formed p = true) products ->
  Forall (fun p => Props.well_formed p = true) (snd (handle uuid products req)).
Proof.
  intros Hwf. destruct (handle uuid products req) as [resp products'] eqn:Hh. simpl.
  destruct (handle_effect uuid products req resp products' Hh)
    as [[-> _]
       |[(n & d & p & c & s & _ & _ & _ & Hc & _ & ->)
        |[(j & before & old & after & n & d & p & c & s & _ & _ & _ & Hc & -> & _
           & _ & _ & ->)
         |(j & before & old & after & _ & _ & -> & _ & _ & _ & ->)]]].
  - assumption.
  - apply Forall_app. split; [assumption|].
    constructor; [|constructor]. eapply stored_well_formed, Hc.
  - apply Forall_app in Hwf as [Hb Ha]. apply Forall_cons in Ha as [_ Ha].
    apply Forall_app. split; [assumption|]. constructor; [|assumption].
    eapply stored_well_formed, Hc.
  - apply Forall_app in Hwf as [Hb Ha]. apply Forall_cons in Ha as [_ Ha].
    apply Forall_app. split; assumption.
Qed.

(** X8. Every record of the array has a name, a description and a
    category with something else than white space in them and no white
    space at either end, and a price that is not negative.  This holds
    of the seed data and is kept by every request, so it holds after
    every sequence of requests, whatever the payloads were. *)
Theorem store_stays_well_formed {builtins : JS.Builtins} (rs : list (string * request)) :
  (forall products,
     Forall (fun p => Props.well_formed p = true) products ->
     Forall (fun p => Props.well_formed p = true) (serve products rs))
  /\ Forall (fun p => Props.well_formed p = true) (serve seed rs).
Proof.
  assert (Hstep : forall products,
             Forall (fun p => Props.well_formed p = true) products ->
             Forall (fun p => Props.well_formed p = true) (serve products rs)).
  { induction rs as [|[uuid req] rs IH]; simpl; intros products Hwf; [assumption|].
    apply IH. now apply handle_well_formed. }
  split; [exact Hstep|]. apply Hstep.
  apply Forall_forall. intros p Hp.
  repeat (apply elem_of_cons in Hp as [->|Hp]; [vm_compute; reflexivity|]).
  inversion Hp.
Qed.

Lemma store_stays_well_formed_witness :
  Forall (fun p => Props.well_formed p = true) (serve (take 2 seed) session).
Proof.
  apply (proj1 (store_stays_well_formed session)).
  repeat constructor.
Defined.

(** ** Status and body *)

Lemma handler_answers {builtins : JS.Builtins}
  (uuid : string) (products : list product) (req : request)
  (r : response) (products' : list product) :
  handler uuid products req = (inr r, products') ->
  match json r with
  | Failure _ _ _ => False
  | Message m _ =>
      (status r = 201 /\ m = "Product created successfully")
      \/ (status r = 200
          /\ (m = "Product updated successfully" \/ m = "Product deleted successfully"))
  | _ => status r = 200
  end.
Proof.
  unfold handler, getProducts, searchProducts, getStats, getProduct,
    createProduct, updateProduct, deleteProduct.
  intros H.
  repeat match type of H with
         | context [match ?x with _ => _ end] => destruct x
         end;
    try discriminate; injection H as <- <-; simpl; auto.
Qed.

(** X9. Whatever the request, the answer is consistent: an error body
    carries the same code as the HTTP status, and its label goes with the
    code (400 Validation Error, 401 Authentication Error, 404 Not Found,
    500 Internal Server Error with the fixed message); a creation message
    comes with 201; every other body comes with 200. *)
Theorem status_matches_body {builtins : JS.Builtins}
  (uuid : string) (products : list product) (req : request) :
  match json (fst (handle uuid products req)) with
  | Failure label message code =>
      code = status (fst (handle uuid products req))
      /\ ((code = 400 /\ label = "Validation Error")
          \/ (code = 401 /\ label = "Authentication Error")
          \/ (code = 404 /\ label = "Not Found")
          \/ (code = 500 /\ label = "Internal Server Error"
              /\ message = "Something went wrong!"))
  | Message m _ =>
      (status (fst (handle uuid products req)) = 201
       /\ m = "Product created successfully")
      \/ (status (fst (handle uuid products req)) = 200
          /\ (m = "Product updated successfully"
              \/ m = "Product deleted successfully"))
  | _ => status (fst (handle uuid products req)) = 200
  end.
Proof.
  assert (Herr : forall e,
             match json (errorHandler e) with
             | Failure label message code =>
                 code = status (errorHandler e)
                 /\ ((code = 400 /\ label = "Validation Error")
                     \/ (code = 401 /\ label = "Authentication Error")
                     \/ (code = 404 /\ label = "Not Found")
                     \/ (code = 500 /\ label = "Internal Server Error"
                         /\ message = "Something went wrong!"))
             | Message m _ => False
             | _ => False
             end).
  { intros [m|m|m|]; simpl; auto 10. }
  unfold handle.
  destruct (run_middlewares (middlewares (target req)) req) as [e|]; simpl.
  - specialize (Herr e). destruct (json (errorHandler e)); tauto.
  - destruct (handler uuid products req) as [[e|r] products'] eqn:Hh; simpl.
    + specialize (Herr e). destruct (json (errorHandler e)); tauto.
    + apply handler_answers in Hh. destruct (json r); tauto.
Qed.

(** ** Validation before anything else *)

(** X10. On POST and PUT sent with the right key, the answer is 400
    exactly when the validator rejects the payload, and then it is the
    validator's error and the array is untouched: a PUT with a bad
    payload is answered 400 even when no product has the identifier. *)
Theorem invalid_payload_is_400 {builtins : JS.Builtins}
  (uuid : string) (products : list product) (req : request) :
  (target req = CreateProduct \/ exists i, target req = UpdateProduct i) ->
  headers req !! "x-api-key" = Some secret ->
  (status (fst (handle uuid products req)) = 400 <-> validateProduct req <> None)
  /\ (forall e, validateProduct req = Some e ->
                handle uuid products req = (errorHandler e, products)
                /\ status (errorHandler e) = 400).
Proof.
  intros Ht Hkey%auth_passes_iff.
  assert (Hh : handle uuid products req
               = match validateProduct req with
                 | Some e => (errorHandler e, products)
                 | None => let '(o, products') := handler uuid products req in
                           (respond o, products')
                 end).
  { destruct Ht as [Ht|[i Ht]];
      [rewrite (handle_create uuid products req Ht)
      |rewrite (handle_update uuid products req i Ht)];
      rewrite Hkey; unfold handler; rewrite Ht; reflexivity. }
  rewrite Hh. destruct (validateProduct req) as [e|] eqn:Hv.
  - destruct (validation_fails_with req e Hv) as [m ->]. simpl.
    split; [split; [discriminate | reflexivity]|].
    intros e [= <-]. auto.
  - split; [|discriminate]. split; [|intros H; now destruct H].
    destruct (validateProduct_accepts req Hv)
      as (n & d & p & c & s & _ & _ & _ & _ & _ & _ & _ & _ & _ & Hf).
    unfold handler, createProduct, updateProduct.
    destruct Ht as [Ht|[i Ht]]; rewrite Ht, ?Hf.
    + simpl. discriminate.
    + destruct (JS.findIndex _ products) as [idx|]; [|simpl; discriminate].
      destruct (products !! idx); simpl; discriminate.
Qed.

Lemma invalid_payload_is_400_witness :
  handle "u" seed (submit (UpdateProduct "no-such-id") key_header blank_name)
  = (errorHandler (ValidationError "Name is required and must be a non-empty string"),
     seed)
  /\ status (errorHandler
               (ValidationError "Name is required and must be a non-empty string"))
     = 400.
Proof.
  apply (proj2 (invalid_payload_is_400 "u" seed
                  (submit (UpdateProduct "no-such-id") key_header blank_name)
                  (or_intror (ex_intro _ "no-such-id" eq_refl))
                  ltac:(vm_compute; reflexivity))).
  vm_compute. reflexivity.
Defined.

(** ** More on pagination *)

Section Pages.

Context {builtins : JS.Builtins}.

Lemma ceiling_bounds (a L : Z) :
  0 < L ->
  a <= JS.Math_ceil (inject_Z a / inject_Z L) * L
  /\ (JS.Math_ceil (inject_Z a / inject_Z L) - 1) * L < a.
Proof.
  intros HL. unfold JS.Math_ceil.
  set (x := (inject_Z a / inject_Z L)%Q).
  assert (HLq : (0 < inject_Z L)%Q)
    by (change (inject_Z 0 < inject_Z L)%Q; rewrite <- Zlt_Qlt; exact HL).
  assert (Hx : (x * inject_Z L == inject_Z a)%Q).
  { unfold x. rewrite Qmult_comm. apply Qmult_div_r.
    intros H. rewrite H in HLq. now apply Qlt_irrefl in HLq. }
  split.
  - rewrite Zle_Qle, inject_Z_mult, <- Hx.
    apply Qmult_le_compat_r; [apply Qle_ceiling | now apply Qlt_le_weak].
  - rewrite Zlt_Qlt, inject_Z_mult, <- Hx.
    apply Qmult_lt_compat_r; [assumption | apply Qceiling_lt].
Qed.

Variables (uuid : string) (products : list product) (req : request).

(** The page for a page number and a limit that are at least 1. *)
Lemma page_content :
  target req = GetProducts ->
  1 <= page_of (query req) -> 1 <= limit_of (query req) ->
  exists info,
    fst (handle uuid products req) = {| status := 200;
      json := ProductPage
                (take (Z.to_nat (limit_of (query req)))
                   (drop (Z.to_nat ((page_of (query req) - 1) * limit_of (query req)))
                      (filteredProducts products (query req))))
                info |}
    /\ Pagination.currentPage info = page_of (query req)
    /\ Pagination.totalPages info
       = JS.Math_ceil (inject_Z (Z.of_nat (length (filteredProducts products (query req))))
                       / inject_Z (limit_of (query req)))
    /\ Pagination.hasNextPage info
       = (page_of (query req) * limit_of (query req)
          <? Z.of_nat (length (filteredProducts products (query req)))).
Proof.
  intros Ht Hp Hl. unfold handle, handler. rewrite Ht. simpl. unfold getProducts.
  eexists. split.
  - rewrite slice_window by nia. unfold Spec.window.
    rewrite window_from_take_drop, !Z.sub_0_r.
    do 3 f_equal. nia.
  - repeat split; reflexivity.
Qed.

End Pages.

Lemma pages_concat {builtins : JS.Builtins}
  (uuid : string) (products filtered : list product) (L : Z)
  (reqs : list request) (start : nat) :
  1 <= L ->
  (forall k req, reqs !! k = Some req ->
     target req = GetProducts
     /\ filteredProducts products (query req) = filtered
     /\ limit_of (query req) = L
     /\ page_of (query req) = Z.of_nat (start + k + 1)) ->
  concat (map (fun req => Props.page_items (fst (handle uuid products req))) reqs)
  = take (length reqs * Z.to_nat L) (drop (start * Z.to_nat L) filtered).
Proof.
  intros HL. revert start. induction reqs as [|req reqs IH]; intros start Hreqs.
  - reflexivity.
  - destruct (Hreqs 0%nat req eq_refl) as (Ht & Hf & Hlim & Hpage).
    destruct (page_content uuid products req Ht) as (info & Hresp & _);
      [lia.. |].
    simpl. rewrite Hresp, Hf, Hlim, Hpage. unfold Props.page_items at 1. simpl.
    rewrite (IH (S start)).
    2:{ intros k r Hk. destruct (Hreqs (S k) r Hk) as (? & ? & ? & Hpk).
        repeat split; try assumption. rewrite Hpk. f_equal. lia. }
    replace (Z.to_nat ((Z.of_nat (start + 0 + 1) - 1) * L))
      with (start * Z.to_nat L)%nat by nia.
    replace (S start * Z.to_nat L)%nat with (start * Z.to_nat L + Z.to_nat L)%nat by lia.
    rewrite <- drop_drop. apply take_take_drop.
Qed.

(** X11. The pages cover the filtered list: for a limit of at least 1,
    within the range of the exact integers, the requests for the pages
    1, 2, ..., totalPages with the same filters, taken in this order,
    return every product of the filtered list exactly once and in the
    order of the list. *)
Theorem pages_cover_the_list {builtins : JS.Builtins}
  (uuid : string) (products filtered : list product) (L : Z) (reqs : list request) :
  1 <= L -> JS.safe L ->
  (forall k req, reqs !! k = Some req ->
     target req = GetProducts
     /\ filteredProducts products (query req) = filtered
     /\ limit_of (query req) = L
     /\ page_of (query req) = Z.of_nat (k + 1)) ->
  Z.of_nat (length reqs)
  = JS.Math_ceil (inject_Z (Z.of_nat (length filtered)) / inject_Z L) ->
  concat (map (fun req => Props.page_items (fst (handle uuid products req))) reqs)
  = filtered.
Proof.
  intros HL _ Hreqs Hn.
  rewrite (pages_concat uuid products filtered L reqs 0 HL) by exact Hreqs.
  rewrite drop_0. apply take_ge.
  destruct (ceiling_bounds (Z.of_nat (length filtered)) L) as [Hle _]; [lia|].
  rewrite <- Hn in Hle. nia.
Qed.

Lemma pages_cover_the_list_witness :
  concat (map (fun req => Props.page_items (fst (handle "u" seed req)))
            [fetch GetProducts {["limit" := "2"; "page" := "1"]};
             fetch GetProducts {["limit" := "2"; "page" := "2"]};
             fetch GetProducts {["limit" := "2"; "page" := "3"]}])
  = seed.
Proof.
  apply (pages_cover_the_list "u" seed seed 2).
  - lia.
  - split; vm_compute; discriminate.
  - intros [|[|[|k]]] req [= <-]; vm_compute; auto.
  - vm_compute. reflexivity.
Defined.

(** X12. For a page number and a limit of at least 1, within the range
    of the exact integers: hasNextPage is
    true exactly when the page number is below totalPages; a page never
    holds more products than the limit, holds exactly that many when
    hasNextPage is true, holds at least one when the page number is at
    most totalPages, and is empty beyond totalPages; and totalPages is 0
    exactly when the filtered list is empty. *)
Theorem page_metadata_is_consistent {builtins : JS.Builtins}
  (uuid : string) (products : list product) (req : request) :
  target req = GetProducts ->
  1 <= page_of (query req) -> 1 <= limit_of (query req) ->
  JS.safe (page_of (query req)) -> JS.safe (limit_of (query req)) ->
  exists items info,
    fst (handle uuid products req)
    = {| status := 200; json := ProductPage items info |}
    /\ (Pagination.hasNextPage info = true
        <-> page_of (query req) < Pagination.totalPages info)
    /\ Z.of_nat (length items) <= limit_of (query req)
    /\ (Pagination.hasNextPage info = true ->
        Z.of_nat (length items) = limit_of (query req))
    /\ (page_of (query req) <= Pagination.totalPages info -> items <> [])
    /\ (Pagination.totalPages info < page_of (query req) -> items = [])
    /\ (Pagination.totalPages info = 0
        <-> filteredProducts products (query req) = []).
Proof.
  intros Ht Hp Hl _ _.
  destruct (page_content uuid products req Ht Hp Hl) as (info & Hresp & _ & Htotal & Hnext).
  eexists _, info. split; [exact Hresp|].
  set (filtered := filteredProducts products (query req)) in *.
  set (page := page_of (query req)) in *. set (L := limit_of (query req)) in *.
  destruct (ceiling_bounds (Z.of_nat (length filtered)) L) as [Hle Hlt]; [lia|].
  rewrite <- Htotal in Hle, Hlt.
  assert (Hlen : length (take (Z.to_nat L) (drop (Z.to_nat ((page - 1) * L)) filtered))
                 = Nat.min (Z.to_nat L) (length filtered - Z.to_nat ((page - 1) * L)))
    by now rewrite length_take, length_drop.
  rewrite Hnext, Z.ltb_lt.
  split; [nia|]. split; [lia|]. split; [intros; nia|]. split; [|split].
  - intros Hin Hnil. apply (f_equal length) in Hnil. rewrite Hlen in Hnil.
    simpl in Hnil. nia.
  - intros Hout. apply length_zero_iff_nil. rewrite Hlen. nia.
  - rewrite <- length_zero_iff_nil. nia.
Qed.

Lemma page_metadata_is_consistent_witness :
  exists items info,
    fst (handle "u" seed (fetch GetProducts {["limit" := "2"; "page" := "3"]}))
    = {| status := 200; json := ProductPage items info |}
    /\ (Pagination.hasNextPage info = true <-> 3 < Pagination.totalPages info)
    /\ Z.of_nat (length items) <= 2.
Proof.
  destruct (page_metadata_is_consistent "u" seed
              (fetch GetProducts {["limit" := "2"; "page" := "3"]}) eq_refl)
    as (items & info & H1 & H2 & H3 & _).
  - vm_compute. discriminate.
  - vm_compute. discriminate.
  - split; vm_compute; discriminate.
  - split; vm_compute; discriminate.
  - exists items, info. auto.
Defined.

(** X13. A [page] or [limit] parameter in which [parseInt] finds no
    number, or finds 0, is treated as if it were not there: the answer is
    the answer to the same request without the parameter (page 1,
    limit 10).  [parseInt] skips leading white space, of whatever kind,
    and stops at the first character that is no digit. *)
Theorem unusable_page_parameter_is_ignored {builtins : JS.Builtins}
  (uuid : string) (products : list product) (req : request) (k s : string) :
  target req = GetProducts ->
  k = "page" \/ k = "limit" ->
  query req !! k = Some s ->
  JS.parseInt_string s = None \/ JS.parseInt_string s = Some 0 ->
  handle uuid products req
  = handle uuid products (Props.with_query req (delete k (query req))).
Proof.
  intros Ht Hk Hs Hparse.
  assert (Hdefault : forall d, JS.or_default (JS.parseInt (Some s)) d = d).
  { intros d. simpl. now destruct Hparse as [-> | ->]. }
  unfold handle, handler, Props.with_query. simpl. rewrite Ht. simpl.
  unfold getProducts, filteredProducts, filterByInStock, filterByCategory,
    page_of, limit_of. simpl.
  destruct Hk as [-> | ->];
    rewrite lookup_delete_eq, !lookup_delete_ne, Hs, Hdefault by discriminate;
    reflexivity.
Qed.

Lemma unusable_page_parameter_is_ignored_witness :
  handle "u" seed (fetch GetProducts {["limit" := "many"]})
  = handle "u" seed
      (Props.with_query (fetch GetProducts {["limit" := "many"]})
         (delete "limit" (query (fetch GetProducts {["limit" := "many"]})))).
Proof.
  apply (unusable_page_parameter_is_ignored "u" seed
           (fetch GetProducts {["limit" := "many"]}) "limit" "many" eq_refl).
  - right. reflexivity.
  - vm_compute. reflexivity.
  - left. vm_compute. reflexivity.
Defined.

(** X17. Without [category], [inStock], [page] and [limit] parameters
    the listing is cut at ten: the answer holds the first ten products of
    the array (all of them when there are fewer), as page 1, counts the
    whole array as totalProducts, and says hasNextPage exactly when the
    array holds more than ten. *)
Theorem default_listing {builtins : JS.Builtins}
  (uuid : string) (products : list product) (req : request) :
  target req = GetProducts ->
  query req !! "category" = None -> query req !! "inStock" = None ->
  query req !! "page" = None -> query req !! "limit" = None ->
  exists info,
    fst (handle uuid products req)
    = {| status := 200; json := ProductPage (take 10 products) info |}
    /\ Pagination.currentPage info = 1
    /\ Pagination.totalProducts info = length products
    /\ (Pagination.hasNextPage info = true <-> (10 < length products)%nat)
    /\ Pagination.hasPrevPage info = false.
Proof.
  intros Ht Hc Hs Hp Hl.
  unfold handle, handler. rewrite Ht. simpl. unfold getProducts.
  rewrite (unfiltered products (query req)) by auto.
  unfold page_of, limit_of. rewrite Hp, Hl. simpl JS.or_default.
  eexists. split.
  - rewrite slice_window by lia. unfold Spec.window.
    rewrite window_from_take_drop. reflexivity.
  - simpl. repeat split; try reflexivity; rewrite Z.ltb_lt; lia.
Qed.

Lemma default_listing_witness :
  exists info,
    fst (handle "u" seed (fetch GetProducts ∅))
    = {| status := 200; json := ProductPage (take 10 seed) info |}
    /\ Pagination.currentPage info = 1
    /\ Pagination.totalProducts info = length seed
    /\ (Pagination.hasNextPage info = true <-> (10 < length seed)%nat)
    /\ Pagination.hasPrevPage info = false.
Proof.
  apply (default_listing "u" seed (fetch GetProducts ∅) eq_refl);
    vm_compute; reflexivity.
Defined.

(** ** More on the filters *)

Lemma filter_sublist_impl {A : Type} (f g : A -> bool) (l : list A) :
  (forall x, f x = true -> g x = true) ->
  List.filter f l `sublist_of` List.filter g l.
Proof.
  intros Hfg. induction l as [|a l IH]; simpl; [constructor|].
  destruct (f a) eqn:Hfa.
  - rewrite (Hfg a Hfa). now constructor.
  - destruct (g a); [now constructor | assumption].
Qed.

(** X14. The [inStock] parameter selects the products in stock only when
    it is exactly the string [true]; any other value (such as [TRUE],
    [1] or the empty string) is treated like [false]: the answer is the
    answer for [inStock=false], and every product of the page is out of
    stock. *)
Theorem in_stock_parameter_other_than_true {builtins : JS.Builtins}
  (uuid : string) (products : list product) (req : request) (v : string) :
  target req = GetProducts ->
  query req !! "inStock" = Some v ->
  v <> "true" ->
  handle uuid products req
  = handle uuid products (Props.with_query req (<["inStock" := "false"]> (query req)))
  /\ forall p, p ∈ Props.page_items (fst (handle uuid products req)) ->
               inStock p = false.
Proof.
  intros Ht Hv Hne. apply String.eqb_neq in Hne.
  unfold handle, handler, Props.with_query. simpl. rewrite Ht. simpl.
  unfold getProducts, filteredProducts, filterByInStock, filterByCategory,
    page_of, limit_of. simpl.
  rewrite lookup_insert_eq, !lookup_insert_ne, Hv, Hne by discriminate.
  split; [reflexivity|].
  unfold Props.page_items. simpl. intros p Hp.
  eapply elem_of_sublist in Hp; [|apply slice_sublist].
  apply filter_elem_of in Hp as [_ Hp]. now apply Bool.eqb_prop in Hp.
Qed.

Lemma in_stock_parameter_other_than_true_witness :
  handle "u" seed (fetch GetProducts {["inStock" := "TRUE"]})
  = handle "u" seed
      (Props.with_query (fetch GetProducts {["inStock" := "TRUE"]})
         (<["inStock" := "false"]>
            (query (fetch GetProducts {["inStock" := "TRUE"]})))).
Proof.
  apply (in_stock_parameter_other_than_true "u" seed
           (fetch GetProducts {["inStock" := "TRUE"]}) "TRUE" eq_refl).
  - vm_compute. reflexivity.
  - discriminate.
Defined.

Lemma equal_up_to_case_empty (c c' : string) :
  JS.equal_up_to_case c c' = true ->
  String.eqb c EmptyString = String.eqb c' EmptyString.
Proof. destruct c, c'; simpl; (reflexivity || discriminate). Qed.

(** X15. The case of the [category] parameter does not matter: two
    requests that differ only by the case of its letters get the same
    answer ([toLowerCase] giving the same for two such strings). *)
Theorem category_parameter_ignores_case {builtins : JS.Builtins}
  (uuid : string) (products : list product) (req : request) (c c' : string) :
  JS.case_insensitive ->
  target req = GetProducts ->
  query req !! "category" = Some c ->
  JS.equal_up_to_case c c' = true ->
  handle uuid products req
  = handle uuid products (Props.with_query req (<["category" := c']> (query req))).
Proof.
  intros Hlaw Ht Hc Hcase.
  unfold handle, handler, Props.with_query. simpl. rewrite Ht. simpl.
  unfold getProducts, filteredProducts, filterByInStock, filterByCategory,
    page_of, limit_of. simpl.
  rewrite lookup_insert_eq, !lookup_insert_ne, Hc by discriminate.
  rewrite <- (equal_up_to_case_empty c c' Hcase).
  apply Hlaw in Hcase. now rewrite Hcase.
Qed.

Lemma category_parameter_ignores_case_witness :
  handle "u" seed (fetch GetProducts {["category" := "Kitchen"]})
  = handle "u" seed
      (Props.with_query (fetch GetProducts {["category" := "Kitchen"]})
         (<["category" := "KITCHEN"]>
            (query (fetch GetProducts {["category" := "Kitchen"]})))).
Proof.
  apply (category_parameter_ignores_case "u" seed
           (fetch GetProducts {["category" := "Kitchen"]}) "Kitchen" "KITCHEN"
           ascii_builtins_case eq_refl).
  - vm_compute. reflexivity.
  - vm_compute. reflexivity.
Defined.

(** ** More on search *)

Lemma includes_trans (s t u : string) :
  JS.includes s t = true -> JS.includes t u = true -> JS.includes s u = true.
Proof.
  rewrite !includes_iff. intros (a & b & ->) (c & d & ->).
  exists (a +:+ c), (d +:+ b). now rewrite !append_assoc.
Qed.

Lemma searchProducts_results {builtins : JS.Builtins}
  (products : list product) (req : request) (q : string) :
  query req !! "q" = Some q -> q <> EmptyString ->
  forall uuid,
    Props.search_results (fst (handle uuid products (Props.with_target req SearchProducts)))
    = List.filter (matches q) products.
Proof.
  intros Hq Hne%String.eqb_neq uuid.
  unfold handle, handler, Props.with_target, searchProducts. simpl.
  now rewrite Hq, Hne.
Qed.

(** X16. A longer search text narrows the search: when the text [q] is
    not empty and, in lower case, occurs in the text [q'] in lower case,
    every product found for [q'] is found for [q], in the same order.
    For ASCII texts this is so whenever [q] occurs in [q'] up to case;
    and two texts that differ only by the case of their letters find the
    same products. *)
Theorem longer_query_narrows {builtins : JS.Builtins}
  (uuid : string) (products : list product) (req req' : request) (q q' : string) :
  target req = SearchProducts -> target req' = SearchProducts ->
  query req !! "q" = Some q -> query req' !! "q" = Some q' ->
  q <> EmptyString ->
  (Spec.substring (JS.toLowerCase q') (JS.toLowerCase q) ->
   Props.search_results (fst (handle uuid products req'))
   `sublist_of` Props.search_results (fst (handle uuid products req)))
  /\ (JS.ascii_lowering -> JS.ascii_text q = true -> JS.ascii_text q' = true ->
      Spec.contains_up_to_case q' q ->
      Props.search_results (fst (handle uuid products req'))
      `sublist_of` Props.search_results (fst (handle uuid products req)))
  /\ (JS.case_insensitive -> JS.equal_up_to_case q' q = true ->
      Props.search_results (fst (handle uuid products req'))
      = Props.search_results (fst (handle uuid products req))).
Proof.
  intros Ht Ht' Hq Hq' Hne.
  assert (Hr : Props.search_results (fst (handle uuid products req))
               = List.filter (matches q) products).
  { rewrite <- (searchProducts_results products req q Hq Hne uuid).
    unfold Props.with_target. rewrite <- Ht. now destruct req. }
  assert (Hr' : q' <> EmptyString ->
                Props.search_results (fst (handle uuid products req'))
                = List.filter (matches q') products).
  { intros Hne'. rewrite <- (searchProducts_results products req' q' Hq' Hne' uuid).
    unfold Props.with_target. rewrite <- Ht'. now destruct req'. }
  assert (Hempty : q' = EmptyString ->
                   Props.search_results (fst (handle uuid products req')) = []).
  { intros ->. unfold handle, handler. rewrite Ht'. simpl.
    unfold searchProducts. now rewrite Hq'. }
  assert (Hsub : Spec.substring (JS.toLowerCase q') (JS.toLowerCase q) ->
                 Props.search_results (fst (handle uuid products req'))
                 `sublist_of` List.filter (matches q) products).
  { intros Hin. destruct (String.eqb_spec q' EmptyString) as [He|Hne'].
    - rewrite (Hempty He). apply sublist_nil_l.
    - rewrite (Hr' Hne'). apply filter_sublist_impl. intros p.
      apply includes_iff in Hin. unfold matches.
      rewrite !orb_true_iff. intros [H|H]; [left | right];
        eapply includes_trans; eassumption. }
  rewrite Hr. split; [exact Hsub|]. split.
  - intros Hlower Ha Ha' Hin. apply Hsub. apply includes_iff.
    rewrite (Hlower q Ha), (Hlower q' Ha'). now apply includes_up_to_case.
  - intros Hcase Heq. destruct (String.eqb_spec q' EmptyString) as [He|Hne'].
    + subst q'. destruct q; [now destruct Hne | discriminate].
    + rewrite (Hr' Hne'). apply Hcase in Heq.
      unfold matches. now rewrite Heq.
Qed.

Lemma longer_query_narrows_witness :
  Props.search_results (fst (handle "u" seed (fetch SearchProducts {["q" := "Wireless"]})))
  `sublist_of`
  Props.search_results (fst (handle "u" seed (fetch SearchProducts {["q" := "LESS"]}))).
Proof.
  destruct (longer_query_narrows "u" seed
              (fetch SearchProducts {["q" := "LESS"]})
              (fetch SearchProducts {["q" := "Wireless"]}) "LESS" "Wireless"
              eq_refl eq_refl) as (_ & H & _).
  - vm_compute. reflexivity.
  - vm_compute. reflexivity.
  - discriminate.
  - apply H.
    + exact ascii_builtins_lowering.
    + reflexivity.
    + reflexivity.
    + exists "Wire", "less", EmptyString. split; vm_compute; reflexivity.
Defined.

(** ** Creating *)

(** X18. The answer to a POST does not depend on what the array holds:
    the same request with the same generated identifier gets the same
    answer against any two arrays, so a product is never refused for
    resembling one that is already there; and when the answer is 201 the
    array is the old one with one record more. *)
Theorem create_ignores_the_store {builtins : JS.Builtins}
  (uuid : string) (req : request) (products1 products2 : list product) :
  target req = CreateProduct ->
  fst (handle uuid products1 req) = fst (handle uuid products2 req)
  /\ (status (fst (handle uuid products1 req)) = 201 ->
      length (snd (handle uuid products1 req)) = S (length products1)
      /\ take (length products1) (snd (handle uuid products1 req)) = products1).
Proof.
  intros Ht. split.
  - rewrite !(handle_create uuid _ req Ht).
    destruct (authMiddleware req); [reflexivity|].
    destruct (validateProduct req); [reflexivity|].
    unfold createProduct. destruct (fields (body req)) as [[[[[n d] p] c] s]|]; reflexivity.
  - intros H201.
    destruct (create_accepted uuid products1 req _ _ Ht (surjective_pairing _) H201)
      as (n & d & p & c & s & _ & _ & _ & _ & _ & _ & ->).
    split; [rewrite length_app; simpl; lia | apply take_app_length].
Qed.

Lemma create_ignores_the_store_witness :
  fst (handle "u" seed (submit CreateProduct key_header desk))
  = fst (handle "u" [] (submit CreateProduct key_header desk)).
Proof.
  apply (create_ignores_the_store "u" (submit CreateProduct key_header desk) seed []).
  reflexivity.
Defined.

(** ** Facts about [decodeURIComponent] *)

Section Decode.

Lemma escape_length (s rest : string) (b : nat) :
  JS.escape s = Some (b, rest) -> String.length s = (3 + String.length rest)%nat.
Proof.
  destruct s as [|p [|h [|l r]]]; cbn [JS.escape]; try discriminate.
  destruct (Ascii.eqb p "%"); [|discriminate].
  destruct (JS.digit_value 16 h), (JS.digit_value 16 l); try discriminate.
  intros [= _ <-]. reflexivity.
Qed.

Lemma continuation_length (n : nat) (s rest : string) (bs : list nat) :
  JS.continuation n s = Some (bs, rest) -> (String.length rest <= String.length s)%nat.
Proof.
  revert s bs. induction n as [|n IH]; intros s bs; cbn [JS.continuation].
  - now intros [= _ <-].
  - destruct (JS.escape s) as [[b r]|] eqn:He; [|discriminate].
    destruct ((128 <=? b) && (b <? 192))%nat; [|discriminate].
    destruct (JS.continuation n r) as [[bs' r']|] eqn:Hc; [|discriminate].
    intros [= _ <-]. apply escape_length in He. apply IH in Hc. lia.
Qed.

(** The length of the string is enough fuel: more changes nothing. *)
Lemma decode_fuel (f g : nat) (s : string) :
  (String.length s <= f)%nat -> (String.length s <= g)%nat ->
  JS.decode f s = JS.decode g s.
Proof.
  revert g s. induction f as [|f IH]; intros g s Hf Hg.
  - destruct s; [now destruct g | simpl in Hf; lia].
  - destruct s as [|c s]; [now destruct g|].
    destruct g as [|g]; [simpl in Hg; lia|].
    cbn [JS.decode]. simpl in Hf, Hg.
    destruct (Ascii.eqb c "%").
    + destruct (JS.escape (String c s)) as [[b rest]|] eqn:He; [|reflexivity].
      destruct (JS.sequence_length b) as [n|]; [|reflexivity].
      destruct (JS.continuation (n - 1) rest) as [[bs rest']|] eqn:Hc; [|reflexivity].
      destruct (JS.encodes b bs); [|reflexivity].
      apply escape_length in He. apply continuation_length in Hc. simpl in He.
      rewrite (IH g rest') by lia. reflexivity.
    + rewrite (IH g s) by lia. reflexivity.
Qed.

(** A string without a percent sign is its own decoding. *)
Lemma decodeURIComponent_plain (s : string) :
  JS.has_percent s = false -> JS.decodeURIComponent s = Some s.
Proof.
  unfold JS.decodeURIComponent. induction s as [|c s IH]; [reflexivity|].
  cbn [JS.has_percent JS.decode String.length].
  intros [Hc Hs]%orb_false_elim. rewrite Hc, (IH Hs). reflexivity.
Qed.

End Decode.

(** ** Routing *)

Section Routing.

Context {builtins : JS.Builtins}.

Import App.

Lemma strip_trailing_three (a b i : string) :
  i <> EmptyString -> strip_trailing [a; b; i] = [a; b; i].
Proof. intros Hi%String.eqb_neq. simpl. now rewrite Hi. Qed.

Lemma handles_GET (m : string) : handles "GET" m = true <-> m = "GET" \/ m = "HEAD".
Proof.
  unfold handles. rewrite orb_true_iff, andb_true_iff, !String.eqb_eq. tauto.
Qed.

Lemma handles_other (registered m : string) :
  registered <> "GET" -> handles registered m = true <-> m = registered.
Proof.
  intros Hne%String.eqb_neq. unfold handles.
  rewrite Hne, orb_false_r. apply String.eqb_eq.
Qed.

(** Where a path of three segments under [/api/products] goes. *)
Lemma first_route_products (m a b i : string) :
  JS.equal_up_to_case a "api" = true -> JS.equal_up_to_case b "products" = true ->
  i <> EmptyString ->
  first_route routes m [a; b; i]
  = if handles "GET" m && JS.equal_up_to_case i "search" then Endpoint (Api SearchProducts)
    else if handles "GET" m && JS.equal_up_to_case i "stats" then Endpoint (Api GetStats)
    else match JS.decodeURIComponent i with
         | None => Malformed
         | Some v =>
             if handles "GET" m then Endpoint (Api (GetProduct v))
             else if handles "PUT" m then Endpoint (Api (UpdateProduct v))
             else if handles "DELETE" m then Endpoint (Api (DeleteProduct v))
             else Unmatched
         end.
Proof.
  intros Ha Hb Hi%String.eqb_neq.
  unfold routes, products_path. cbn [first_route match_path app List.app].
  rewrite Ha, Hb, Hi.
  destruct (JS.equal_up_to_case i "search"), (JS.equal_up_to_case i "stats"),
    (handles "GET" m), (JS.decodeURIComponent i), (handles "PUT" m),
    (handles "DELETE" m); reflexivity.
Qed.

(** X19. The routes [/api/products/search] and [/api/products/stats] are
    registered before [/api/products/:id], so a GET or HEAD whose last
    segment is [search] or [stats] as written in the URL (in any case)
    goes to the search or statistics handler and never to the handler
    that reads one product.  Every other non-empty last segment is
    decoded and taken as the identifier; when it cannot be decoded the
    request goes to the error handler.  PUT and DELETE take every
    non-empty last segment as the identifier, these two included.  A
    segment without a percent sign is its own decoding. *)
Theorem literal_routes_come_first (a b i : string) :
  JS.equal_up_to_case a "api" = true -> JS.equal_up_to_case b "products" = true ->
  i <> EmptyString ->
  let identified (build : string -> route) : routed :=
    match JS.decodeURIComponent i with
    | Some v => Endpoint (Api (build v))
    | None => Malformed
    end in
  (forall m, m = "GET" \/ m = "HEAD" ->
     (JS.equal_up_to_case i "search" = true ->
      dispatch m [a; b; i] = Endpoint (Api SearchProducts))
     /\ (JS.equal_up_to_case i "search" = false ->
         JS.equal_up_to_case i "stats" = true ->
         dispatch m [a; b; i] = Endpoint (Api GetStats))
     /\ (JS.equal_up_to_case i "search" = false ->
         JS.equal_up_to_case i "stats" = false ->
         dispatch m [a; b; i] = identified GetProduct))
  /\ dispatch "PUT" [a; b; i] = identified UpdateProduct
  /\ dispatch "DELETE" [a; b; i] = identified DeleteProduct
  /\ (JS.has_percent i = false ->
      identified GetProduct = Endpoint (Api (GetProduct i))
      /\ identified UpdateProduct = Endpoint (Api (UpdateProduct i))
      /\ identified DeleteProduct = Endpoint (Api (DeleteProduct i))).
Proof.
  intros Ha Hb Hi identified. unfold dispatch.
  rewrite (strip_trailing_three a b i Hi). split; [|split; [|split]].
  - intros m Hm%handles_GET.
    rewrite (first_route_products m a b i Ha Hb Hi), Hm. simpl.
    repeat split.
    + now intros ->.
    + now intros -> ->.
    + now intros -> ->.
  - rewrite (first_route_products "PUT" a b i Ha Hb Hi). reflexivity.
  - rewrite (first_route_products "DELETE" a b i Ha Hb Hi). reflexivity.
  - intros Hp. subst identified. cbv beta. now rewrite (decodeURIComponent_plain i Hp).
Qed.

Lemma first_route_cases (m : string) (p : list string) (e : endpoint) :
  first_route routes m p = Endpoint e ->
  match e with
  | Root => p = [] /\ handles "GET" m = true
  | Api CreateProduct => m = "POST" /\ length p = 2%nat
  | Api (UpdateProduct _) => m = "PUT" /\ length p = 3%nat
  | Api (DeleteProduct _) => m = "DELETE" /\ length p = 3%nat
  | Api GetProducts => handles "GET" m = true /\ length p = 2%nat
  | Api _ => handles "GET" m = true /\ length p = 3%nat
  end.
Proof.
  unfold routes, products_path.
  destruct p as [|a [|b [|c [|d p]]]];
    cbn [first_route match_path app List.app];
    repeat match goal with
           | |- context [JS.equal_up_to_case ?x ?y] => destruct (JS.equal_up_to_case x y)
           | |- context [String.eqb ?x ?y] => destruct (String.eqb x y)
           | |- context [JS.decodeURIComponent ?x] => destruct (JS.decodeURIComponent x)
           | |- context [handles ?x m] =>
               let Hm := fresh "Hm" in destruct (handles x m) eqn:Hm
           end;
    try discriminate; intros [= <-];
    (split; [first [reflexivity | assumption
                   | apply handles_other in Hm0; [assumption | discriminate]
                   | apply handles_other in Hm1; [assumption | discriminate]
                   | apply handles_other in Hm2; [assumption | discriminate]]
            | first [reflexivity | assumption]]).
Qed.



(** X22. Two kinds of request never reach a route, whatever their method
    and headers.  A request whose body the parser refuses is answered
    500.  So is a request for a path of three segments under
    [/api/products] whose last segment cannot be decoded, unless it is a
    GET or HEAD for [search] or [stats]: the first route with a
    parameter decodes the segment before the method is looked at.  In
    both cases the array is returned as it was; in particular a POST, PUT
    or DELETE of this kind without the key is not answered 401. *)
Theorem errors_before_the_routes
  (uuid : string) (products : list product) (r : incoming) :
  (request_body r = Unparsable ->
   app uuid products r = (Json (errorHandler OtherError), products))
  /\ (forall a b i,
        strip_trailing (path r) = [a; b; i] ->
        JS.equal_up_to_case a "api" = true -> JS.equal_up_to_case b "products" = true ->
        i <> EmptyString -> JS.decodeURIComponent i = None ->
        handles "GET" (verb r)
        && (JS.equal_up_to_case i "search" || JS.equal_up_to_case i "stats") = false ->
        app uuid products r = (Json (errorHandler OtherError), products))
  /\ errorHandler OtherError
     = {| status := 500;
          json := Failure "Internal Server Error" "Something went wrong!" 500 |}.
Proof.
  split; [|split; [|reflexivity]].
  - intros Hb. unfold app. now rewrite Hb.
  - intros a b i Hp Ha Hb Hi Hd Hlit. unfold app, dispatch.
    destruct (request_body r); [|reflexivity].
    rewrite Hp, (first_route_products (verb r) a b i Ha Hb Hi), Hd.
    destruct (handles "GET" (verb r)); simpl in Hlit |- *; [|reflexivity].
    apply orb_false_elim in Hlit as [-> ->]. reflexivity.
Qed.

Lemma read_only_routes (uuid : string) (products : list product) (req : request) :
  mutating (target req) = false -> snd (handle uuid products req) = products.
Proof.
  intros Hm. unfold handle, handler.
  destruct (target req); try discriminate; reflexivity.
Qed.

(** X21. A GET or HEAD request never changes the array, whatever its
    path, headers, query and body: it reaches the welcome route, one of
    the four reading routes, the 404 handler or the error handler. *)
Theorem get_requests_are_safe
  (uuid : string) (products : list product) (r : incoming) :
  verb r = "GET" \/ verb r = "HEAD" ->
  snd (app uuid products r) = products.
Proof.
  intros Hv. unfold app, dispatch.
  destruct (request_body r) as [o|]; [|reflexivity].
  destruct (first_route routes (verb r) (strip_trailing (path r))) as [[|t]| |] eqn:He;
    try reflexivity.
  apply first_route_cases in He.
  destruct (mutating t) eqn:Hm.
  - exfalso. destruct t; try discriminate;
      destruct He as [He _]; destruct Hv as [Hv|Hv]; rewrite Hv in He; discriminate.
  - set (req := {| target := t; headers := request_headers r;
                   query := request_query r; body := o |}).
    rewrite (surjective_pairing (handle uuid products req)). simpl.
    now apply read_only_routes.
Qed.

End Routing.

Lemma literal_routes_come_first_witness :
  App.dispatch "GET" ["API"; "Products"; "Search"] = App.Endpoint (App.Api SearchProducts)
  /\ App.dispatch "PUT" ["API"; "Products"; "Search"]
     = App.Endpoint (App.Api (UpdateProduct "Search")).
Proof.
  destruct (literal_routes_come_first "API" "Products" "Search")
    as (H1 & H2 & _).
  - reflexivity.
  - reflexivity.
  - discriminate.
  - split; [apply (H1 "GET"); [left|]; reflexivity | exact H2].
Defined.


(** A DELETE without the key on an identifier that cannot be decoded is
    answered 500; a GET on [se%61rch] reads the product whose identifier
    is [search], and finds none. *)
Example escaped_identifiers :
  App.app "u" seed
    {| App.verb := "DELETE"; App.path := ["api"; "products"; "%"];
       App.originalUrl := "/api/products/%";
       App.request_headers := ∅; App.request_query := ∅;
       App.request_body := Body ∅ |}
  = (App.Json {| status := 500;
                 json := Failure "Internal Server Error" "Something went wrong!" 500 |},
     seed)
  /\ App.app "u" seed
       {| App.verb := "GET"; App.path := ["api"; "products"; "se%61rch"];
          App.originalUrl := "/api/products/se%61rch";
          App.request_headers := ∅; App.request_query := ∅;
          App.request_body := Body ∅ |}
     = (App.Json {| status := 404;
                    json := Failure "Not Found" "Product with ID search not found" 404 |},
        seed)
  /\ App.dispatch "GET" ["api"; "products"; "%33"]
     = App.Endpoint (App.Api (GetProduct "3")).
Proof. repeat split; vm_compute; reflexivity. Qed.

Lemma get_requests_are_safe_witness :
  snd (App.app "u" seed
         {| App.verb := "GET"; App.path := ["api"; "products"; "3"; EmptyString];
            App.originalUrl := "/api/products/3/";
            App.request_headers := ∅; App.request_query := ∅;
            App.request_body := Body desk |})
  = seed.
Proof.
  apply (get_requests_are_safe "u" seed
           {| App.verb := "GET"; App.path := ["api"; "products"; "3"; EmptyString];
              App.originalUrl := "/api/products/3/";
              App.request_headers := ∅; App.request_query := ∅;
              App.request_body := Body desk |}).
  left. reflexivity.
Defined.
